(** * Zone RDF analysis (zone_RDF/md_rdf_analysis.py)

    A shallow embedding of [MDTrajAnalyser.analyze_rdf] and
    [MDTrajAnalyser.run_analysis].

    The program is a driver over three external libraries: MDAnalysis
    (trajectory, atom selection, [InterRDF]), numpy ([cumsum], [mean],
    [savetxt]) and a data-table library ([DataFrame.to_csv]).  The driver
    itself is embedded instruction by instruction; the libraries appear
    as a record of operations ([Universe]) and as small functions that
    follow the documented behaviour of the calls the driver makes.

    Numbers.  Every array the driver touches is a float64 array.  The
    embedding is written once over an interface [Num] of the arithmetic
    the driver performs (addition, division, conversion of a Python int)
    and instantiated twice: with Rocq's primitive binary64 floats, which
    is the arithmetic the program runs, and with exact rationals. *)

From Stdlib Require Import String List ZArith QArith Bool Lia Sorted.
From Stdlib Require Import PrimFloat SpecFloat FloatOps.
Import ListNotations.

Local Open Scope string_scope.
Local Open Scope list_scope.
Local Open Scope nat_scope.

Set Implicit Arguments.

(** ** Arithmetic interface *)

Class Num (R : Type) : Type := {
  nzero : R;
  nadd : R -> R -> R;
  ndiv : R -> R -> R;
  of_int : Z -> R   (* conversion of a Python int in a float operation *)
}.

(** float64, as numpy computes. *)
#[export] Instance Num_float : Num float := {
  nzero := 0%float;
  nadd := PrimFloat.add;
  ndiv := PrimFloat.div;
  of_int := fun z => SF2Prim (binary_normalize prec emax z 0 false)
}.

(** Exact rational arithmetic. *)
#[export] Instance Num_Q : Num Q := {
  nzero := 0%Q;
  nadd := Qplus;
  ndiv := Qdiv;
  of_int := inject_Z
}.

(** Order laws on non-negative values: a sum is not below its left
    term, sums are monotone in both terms, and division by a positive
    count is monotone and keeps a value non-negative.  They are stated
    for non-negative operands only: that is all the cumulative profiles
    need, and it leaves out the operands (NaN, infinities of opposite
    sign) on which a rounded arithmetic has no order to preserve. *)
Class OrderedNum (R : Type) {N : Num R} : Type := {
  nle : R -> R -> Prop;
  nle_refl : forall x, nle nzero x -> nle x x;
  nle_trans : forall x y z, nle x y -> nle y z -> nle x z;
  nadd_nonneg : forall x c, nle nzero x -> nle nzero c -> nle x (nadd x c);
  nadd_mono : forall a b c d, nle nzero a -> nle nzero c ->
                              nle a b -> nle c d -> nle (nadd a c) (nadd b d);
  ndiv_nonneg : forall a n, (0 < n)%Z -> nle nzero a ->
                            nle nzero (ndiv a (of_int n));
  ndiv_mono : forall a b n, (0 < n)%Z -> nle nzero a -> nle a b ->
                            nle (ndiv a (of_int n)) (ndiv b (of_int n))
}.
Arguments OrderedNum R {N}.

(** ** Python outcomes and effects *)

Inductive exn : Type :=
| IndexError
| KeyError (key : string)
| ValueError (msg : string).

Inductive outcome (A : Type) : Type :=
| Returned (a : A)
| Raised (e : exn).
Arguments Raised {A} e.

(** The result of [np.mean]: a 0-d scalar or a 1-d array. *)
Inductive ndarray (R : Type) : Type :=
| Scalar (x : R)
| Array (xs : list R).

(** Written files.  A text file is a list of lines, a header line or a
    line of cells; a cell holds a number or Python's [None]. *)
Inductive cell (R : Type) : Type :=
| CNone
| CNum (x : R).
Arguments CNone {R}.

Inductive line (R : Type) : Type :=
| HeaderLine (text : string)
| DataLine (cells : list (cell R)).
Arguments HeaderLine {R} text.

(** What [plt.plot] and the labelling calls put on a figure before
    [plt.savefig]. *)
Record figure (R : Type) : Type := {
  fig_title : string;
  fig_xlabel : string;
  fig_ylabel : string;
  fig_x : list R;
  fig_y : list R
}.

Inductive file (R : Type) : Type :=
| Text (lines : list (line R))
| Image (fig : figure R).

(** The effects of the driver that can be observed from outside. *)
Inductive event (R : Type) : Type :=
| PrintFrame (f : Z)                        (* print(f"Analysing frame: {frame.frame}") *)
| PrintCoordAvg (avg : ndarray R)           (* print(f'The average ion coordination number is ...') *)
| SelectAtoms (f : Z) (expr : string)       (* u.select_atoms(expr) with the trajectory at frame f *)
| WriteFile (dir name : string) (content : file R).
Arguments PrintFrame {R} f.
Arguments SelectAtoms {R} f expr.

(** A computation leaves a trace of effects and either returns or raises;
    effects performed before an exception stay in the trace. *)
Definition M (R A : Type) : Type := (list (event R) * outcome A)%type.

Definition ret {R A} (a : A) : M R A := ([], Returned a).

Definition bind {R A B} (m : M R A) (k : A -> M R B) : M R B :=
  match m with
  | (t, Raised e) => (t, Raised e)
  | (t, Returned a) => let (t', o) := k a in (t ++ t', o)
  end.

Definition emit {R} (e : event R) : M R unit := ([e], Returned tt).

Definition raise {R A} (e : exn) : M R A := ([], Raised e).

Notation "x <- m ;; k" := (bind m (fun x => k))
  (at level 61, m at next level, right associativity).
Notation "m ;;; k" := (bind m (fun _ => k))
  (at level 61, right associativity).

Definition trace {R A} (m : M R A) : list (event R) := fst m.
Definition result {R A} (m : M R A) : outcome A := snd m.

(** ** External library: MDAnalysis *)

Definition AtomGroup : Type := list nat.

(** The loaded universe [mda.Universe(structure, trajectory)].
    [select_atoms f expr] is [u.select_atoms(expr)] evaluated while the
    trajectory is positioned at frame [f]: the group depends on the
    coordinates of that frame.  [InterRDF(g1, g2, nbins).run(start, stop)]
    produces three arrays of [nbins] entries, [bins], [count] and [rdf];
    the fields below give their entries at a bin, for the groups, the
    number of bins and the frames of the run.  The bin centres depend on
    the binning only. *)
Record Universe (R : Type) : Type := {
  n_frames : Z;                                      (* len(u.trajectory) *)
  select_atoms : Z -> string -> AtomGroup;
  rdf_bin_center : nat -> nat -> R;                  (* nbins, bin *)
  rdf_pair_count : AtomGroup -> AtomGroup -> nat -> Z -> Z -> nat -> R;
  rdf_density : AtomGroup -> AtomGroup -> nat -> Z -> Z -> nat -> R;
  py_str : R -> string   (* str() of a region bound inside an f-string *)
}.

Record InterRDF (R : Type) : Type := {
  bins : list R;
  count : list R;
  rdf : list R
}.

Section Analysis.

Context {R : Type} {N : Num R}.
Variable u : Universe R.

Definition tabulate (g : nat -> R) (n : nat) : list R := map g (seq 0 n).

(** [InterRDF(g1, g2, nbins=nbins)] followed by [.run(start, stop)]. *)
Definition InterRDF_run (g1 g2 : AtomGroup) (nbins : nat) (start stop : Z)
  : InterRDF R :=
  {| bins := tabulate (rdf_bin_center u nbins) nbins;
     count := tabulate (rdf_pair_count u g1 g2 nbins start stop) nbins;
     rdf := tabulate (rdf_density u g1 g2 nbins start stop) nbins |}.

(** [reader.check_slice_indices(start, stop, None)]: Python slice
    normalisation against the trajectory length, step 1. *)
Definition check_slice_indices (start stop : Z) : Z * Z :=
  let nframes := n_frames u in
  let start := if (start <? 0)%Z then (start + nframes)%Z else start in
  let start := if (start <? 0)%Z then 0%Z else start in
  let stop := if (stop <? 0)%Z then (stop + nframes)%Z else stop in
  let stop := if (nframes <? stop)%Z then nframes else stop in
  (start, stop).

(** [range(a, b)]. *)
Definition py_range (a b : Z) : list Z :=
  map (fun k => (a + Z.of_nat k)%Z) (seq 0 (Z.to_nat (b - a))).

(** The frame numbers visited by [u.trajectory[slice(start, stop)]]. *)
Definition trajectory_slice (frame_range : Z * Z) : list Z :=
  let (start, stop) := check_slice_indices (fst frame_range) (snd frame_range) in
  py_range start stop.

(** ** numpy *)

(** [np.cumsum(a)]: running sums, left to right. *)
Fixpoint cumsum_from (acc : R) (xs : list R) : list R :=
  match xs with
  | [] => []
  | x :: xs' => let acc' := nadd acc x in acc' :: cumsum_from acc' xs'
  end.

Definition cumsum (xs : list R) : list R :=
  match xs with
  | [] => []
  | x :: xs' => x :: cumsum_from x xs'
  end.

(** [a / n] for an array [a] and a Python int [n]. *)
Definition div_int (xs : list R) (n : Z) : list R :=
  map (fun x => ndiv x (of_int n)) xs.

Fixpoint add_rows (acc row : list R) : list R :=
  match acc, row with
  | a :: acc', x :: row' => nadd a x :: add_rows acc' row'
  | _, _ => []
  end.

(** [np.add.reduce(rows, axis=0)] on at least one row: the rows are added
    to the first one in order. *)
Definition sum_axis0 (r : list R) (rows : list (list R)) : list R :=
  fold_left add_rows rows r.

(** [np.mean(rows, axis=0)] for a Python list of equally long 1-d arrays.
    The empty list becomes an array of shape (0,), whose sum 0.0 is
    divided by the count 0; a ragged list is refused by [np.asarray]. *)
Definition np_mean_rows (rows : list (list R)) : outcome (ndarray R) :=
  match rows with
  | [] => Returned (Scalar (ndiv nzero (of_int 0)))
  | r :: rest =>
      if forallb (fun r' => Nat.eqb (length r') (length r)) rest
      then Returned (Array (div_int (sum_axis0 r rest)
                                    (Z.of_nat (length rows))))
      else Raised (ValueError "inhomogeneous shape")
  end.

(** [np.mean(xs, axis=0)] for a Python list of float64 scalars (on a
    long 1-d array numpy may associate the additions blockwise; the
    driver only prints this value). *)
Definition np_mean_scalars (xs : list R) : ndarray R :=
  match xs with
  | [] => Scalar (ndiv nzero (of_int 0))
  | x :: rest => Scalar (ndiv (fold_left nadd rest x)
                              (of_int (Z.of_nat (length xs))))
  end.

(** A library call that has no effect the trace records. *)
Definition lift {A} (o : outcome A) : M R A := ([], o).

(** ** analyze_rdf *)

(** The loop variables [rdf_list], [rdf_coord], [rdf_cumu] and [bins]
    ([acc_bins]; [None] until a frame assigns it). *)
Record accumulators : Type := {
  rdf_list : list (list R);
  rdf_coord : list R;
  rdf_cumu : list (list R);
  acc_bins : option (list R)
}.

Definition init_accumulators : accumulators :=
  {| rdf_list := []; rdf_coord := []; rdf_cumu := []; acc_bins := None |}.

(** One pass through the body of the [for frame in ...] loop, with the
    trajectory at [frame]: both selections are evaluated, a frame
    without ions is skipped, otherwise the single-frame RDF is run and
    its samples are appended.  [count[38]] is a checked read. *)
Definition loop_body (ion_selection partner_selection : string)
  (frame : Z) (st : accumulators) : M R accumulators :=
  emit (PrintFrame frame) ;;;
  emit (SelectAtoms frame ion_selection) ;;;
  let ions := select_atoms u frame ion_selection in
  emit (SelectAtoms frame partner_selection) ;;;
  let partners := select_atoms u frame partner_selection in
  if Nat.eqb (length ions) 0 then ret st      (* continue *)
  else
    let r := InterRDF_run ions partners 150 frame (frame + 1) in
    let bins' := match acc_bins st with
                 | None => Some (bins r)
                 | Some b => Some b
                 end in
    let cnt := div_int (cumsum (count r)) (Z.of_nat (length ions)) in
    match nth_error cnt 38 with
    | None => raise IndexError
    | Some c38 =>
        ret {| rdf_list := rdf_list st ++ [rdf r];
               rdf_coord := rdf_coord st ++ [c38];
               rdf_cumu := rdf_cumu st ++ [cnt];
               acc_bins := bins' |}
    end.

Fixpoint for_frames (ion_selection partner_selection : string)
  (frames : list Z) (st : accumulators) : M R accumulators :=
  match frames with
  | [] => ret st
  | frame :: rest =>
      st' <- loop_body ion_selection partner_selection frame st ;;
      for_frames ion_selection partner_selection rest st'
  end.

Definition default_frame_range : Z * Z := (20000%Z, 25000%Z).

(** The ion selection after the [if region is not None] block. *)
Definition region_selection (ion_selection : string) (region : option (R * R))
  : string :=
  match region with
  | None => ion_selection
  | Some (lower, upper) =>
      (ion_selection ++ " and cylayer " ++ py_str u lower ++ " "
         ++ py_str u upper ++ " 10 -10")%string
  end.

(** [analyze_rdf]; [u] is the universe the analyser's two files load. *)
Definition analyze_rdf (ion_selection partner_selection : string)
  (region : option (R * R)) (frame_range : option (Z * Z))
  : M R (option (list R) * ndarray R * ndarray R * list R) :=
  let frame_range := match frame_range with
                     | None => default_frame_range
                     | Some fr => fr
                     end in
  let ion_selection := region_selection ion_selection region in
  st <- for_frames ion_selection partner_selection
          (trajectory_slice frame_range) init_accumulators ;;
  rdf_avg <- lift (np_mean_rows (rdf_list st)) ;;
  let coord_avg := np_mean_scalars (rdf_coord st) in
  emit (PrintCoordAvg coord_avg) ;;;
  cumu_avg <- lift (np_mean_rows (rdf_cumu st)) ;;
  ret (acc_bins st, rdf_avg, cumu_avg, rdf_coord st).

(** ** run_analysis *)

(** A configuration dictionary with its recognised keys; [None] is an
    absent key. *)
Record config : Type := {
  cfg_name : option string;
  cfg_ion_selection : option string;
  cfg_partner_selection : option string;
  cfg_region : option (R * R);
  cfg_frame_range : option (Z * Z)
}.

(** [config[key]]. *)
Definition getitem {A} (key : string) (v : option A) : M R A :=
  match v with
  | Some a => ret a
  | None => raise (KeyError key)
  end.

(** [pd.DataFrame({c1: bins, c2: rdf_avg})]: columns of one length, a
    scalar is repeated along the other column, two scalars are refused. *)
Definition DataFrame (bins : option (list R)) (rdf_avg : ndarray R)
  : outcome (list (list (cell R))) :=
  match bins, rdf_avg with
  | Some b, Array r =>
      if Nat.eqb (length b) (length r)
      then Returned (map (fun p => [CNum (fst p); CNum (snd p)]) (combine b r))
      else Raised (ValueError "All arrays must be of the same length")
  | Some b, Scalar x => Returned (map (fun bi => [CNum bi; CNum x]) b)
  | None, Array r => Returned (map (fun ri => [CNone; CNum ri]) r)
  | None, Scalar _ =>
      Raised (ValueError "If using all scalar values, you must pass an index")
  end.

(** [df.to_csv(path, index=False)]: the column names, then one line per row. *)
Definition to_csv (columns : string) (rows : list (list (cell R))) : file R :=
  Text (HeaderLine columns :: map (@DataLine R) rows).

(** [np.savetxt(path, xs, header=h)] for a list of scalars: the commented
    header, then one line per value. *)
Definition savetxt (xs : list R) (header : string) : file R :=
  Text (HeaderLine ("# " ++ header) :: map (fun x => DataLine [CNum x]) xs).

(** [plt.plot(x, y)]: both arguments must have the same first dimension. *)
Definition plot (x : option (list R)) (y : ndarray R)
  : outcome (list R * list R) :=
  match x, y with
  | Some xs, Array ys =>
      if Nat.eqb (length xs) (length ys) then Returned (xs, ys)
      else Raised (ValueError "x and y must have same first dimension")
  | _, _ => Raised (ValueError "x and y must have same first dimension")
  end.

(** [self.output_dir] *)
Variable output_dir : string.

Definition plot_results (bins : option (list R)) (rdf_avg cumu_rdf : ndarray R)
  (region_name : string) : M R unit :=
  p <- lift (plot bins rdf_avg) ;;
  emit (WriteFile output_dir (region_name ++ "_rdf.png")
          (Image {| fig_title := "RDF - " ++ region_name;
                    fig_xlabel := "Radius (Å)";
                    fig_ylabel := "g(r)";
                    fig_x := fst p; fig_y := snd p |})) ;;;
  q <- lift (plot bins cumu_rdf) ;;
  emit (WriteFile output_dir (region_name ++ "_cumuav.png")
          (Image {| fig_title := "Cumulative RDF - " ++ region_name;
                    fig_xlabel := "Radius (Å)";
                    fig_ylabel := "Coordination Number";
                    fig_x := fst q; fig_y := snd q |})).

(** The body of the [for config in configs] loop. *)
Definition run_zone (cfg : config) : M R unit :=
  let region_name := match cfg_name cfg with
                     | Some n => n
                     | None => "default"
                     end in
  ion_selection <- getitem "ion_selection" (cfg_ion_selection cfg) ;;
  partner_selection <- getitem "partner_selection" (cfg_partner_selection cfg) ;;
  res <- analyze_rdf ion_selection partner_selection
           (cfg_region cfg) (cfg_frame_range cfg) ;;
  let '(bins, rdf_avg, cumu_avg, rdf_coord) := res in
  rows <- lift (DataFrame bins rdf_avg) ;;
  emit (WriteFile output_dir (region_name ++ "_rdf.csv")
          (to_csv "Radius (Å),RDF" rows)) ;;;
  emit (WriteFile output_dir (region_name ++ "_coordno.csv")
          (savetxt rdf_coord "Coordination number")) ;;;
  plot_results bins rdf_avg cumu_avg region_name.

Fixpoint run_analysis (configs : list config) : M R unit :=
  match configs with
  | [] => ret tt
  | cfg :: rest => run_zone cfg ;;; run_analysis rest
  end.

End Analysis.

(** * Properties *)

Unset Implicit Arguments.

(** ** The effect monad *)

Lemma bind_returned {R A B} (t : list (event R)) (a : A) (k : A -> M R B) :
  bind (t, Returned a) k = (t ++ fst (k a), snd (k a)).
Proof. unfold bind. destruct (k a); reflexivity. Qed.

Lemma bind_raised {R A B} (t : list (event R)) (e : exn) (k : A -> M R B) :
  bind (t, Raised e) k = (t, Raised e).
Proof. reflexivity. Qed.

Lemma bind_emit {R B} (e : event R) (k : unit -> M R B) :
  bind (emit e) k = (e :: fst (k tt), snd (k tt)).
Proof. unfold emit. rewrite bind_returned. reflexivity. Qed.

Lemma bind_lift_returned {R A B} (a : A) (k : A -> M R B) :
  bind (lift (R := R) (Returned a)) k = k a.
Proof. unfold lift. rewrite bind_returned. destruct (k a); reflexivity. Qed.

Lemma bind_ret {R A B} (a : A) (k : A -> M R B) : bind (ret a) k = k a.
Proof. unfold ret. rewrite bind_returned. destruct (k a); reflexivity. Qed.

(** ** Arrays *)

Section ArrayFacts.

Context {R : Type} {N : Num R}.

Lemma tabulate_length (g : nat -> R) (n : nat) : length (tabulate g n) = n.
Proof. unfold tabulate. rewrite length_map, length_seq. reflexivity. Qed.

Lemma cumsum_from_length (xs : list R) :
  forall acc, length (cumsum_from acc xs) = length xs.
Proof. induction xs as [|x xs IH]; intros acc; simpl; [|rewrite IH]; reflexivity. Qed.

Lemma cumsum_length (xs : list R) : length (cumsum xs) = length xs.
Proof. destruct xs; simpl; [|rewrite cumsum_from_length]; reflexivity. Qed.

Lemma div_int_length (xs : list R) (n : Z) : length (div_int xs n) = length xs.
Proof. apply length_map. Qed.

(** The sum [xs[0] + xs[1] + ... + xs[i]], added left to right. *)
Definition prefix_sum (xs : list R) (i : nat) : R :=
  fold_left nadd (firstn i (tl xs)) (hd nzero xs).

Lemma cumsum_from_nth (xs : list R) :
  forall acc i, i < length xs ->
    nth_error (cumsum_from acc xs) i = Some (fold_left nadd (firstn (S i) xs) acc).
Proof.
  induction xs as [|x xs IH]; intros acc i Hi; simpl in Hi; [lia|].
  destruct i as [|i]; simpl.
  - reflexivity.
  - rewrite IH by lia. reflexivity.
Qed.

Lemma cumsum_nth (xs : list R) (i : nat) :
  i < length xs -> nth_error (cumsum xs) i = Some (prefix_sum xs i).
Proof.
  destruct xs as [|x xs]; simpl; intros Hi; [lia|].
  unfold prefix_sum. destruct i as [|i]; simpl.
  - reflexivity.
  - apply cumsum_from_nth. lia.
Qed.

Lemma add_rows_length (acc row : list R) :
  length row = length acc -> length (add_rows acc row) = length acc.
Proof.
  revert row. induction acc as [|a acc IH]; intros [|x row] H; simpl in *;
    try reflexivity; try discriminate.
  rewrite IH by lia. reflexivity.
Qed.

Lemma add_rows_nth (acc row : list R) (j : nat) (a x : R) :
  nth_error acc j = Some a -> nth_error row j = Some x ->
  nth_error (add_rows acc row) j = Some (nadd a x).
Proof.
  revert row j. induction acc as [|a0 acc IH]; intros row j Ha Hx.
  - destruct j; discriminate.
  - destruct row as [|x0 row]; [destruct j; discriminate|].
    destruct j as [|j]; simpl in *.
    + congruence.
    + apply IH; assumption.
Qed.

Lemma sum_axis0_length (rows : list (list R)) :
  forall r, Forall (fun r' => length r' = length r) rows ->
    length (sum_axis0 r rows) = length r.
Proof.
  unfold sum_axis0. induction rows as [|r1 rows IH]; intros r H; simpl.
  - reflexivity.
  - inversion H as [|? ? H1 H2]; subst.
    rewrite IH.
    + apply add_rows_length. assumption.
    + rewrite add_rows_length by assumption. assumption.
Qed.

(** Column [j] of the summed rows is the left-to-right sum of the rows'
    entries at [j]. *)
Lemma sum_axis0_nth (rows : list (list R)) (j : nat) :
  forall r a, nth_error r j = Some a ->
    Forall (fun r' => length r' = length r) rows ->
    nth_error (sum_axis0 r rows) j
    = Some (fold_left nadd (map (fun r' => nth j r' nzero) rows) a).
Proof.
  unfold sum_axis0. induction rows as [|r1 rows IH]; intros r a Ha H; simpl.
  - assumption.
  - inversion H as [|? ? H1 H2]; subst.
    assert (Hj : j < length r1).
    { rewrite H1. apply nth_error_Some. congruence. }
    destruct (nth_error r1 j) as [x|] eqn:Hx;
      [|apply nth_error_None in Hx; lia].
    rewrite (nth_error_nth _ _ nzero Hx).
    apply IH.
    + apply add_rows_nth; assumption.
    + rewrite add_rows_length by assumption. assumption.
Qed.

Lemma np_mean_rows_uniform (r : list R) (rest : list (list R)) :
  Forall (fun r' => length r' = length r) rest ->
  np_mean_rows (r :: rest)
  = Returned (Array (div_int (sum_axis0 r rest) (Z.of_nat (S (length rest))))).
Proof.
  intros H. unfold np_mean_rows.
  replace (forallb (fun r' => Nat.eqb (length r') (length r)) rest) with true.
  - reflexivity.
  - symmetry. apply forallb_forall. intros x Hx.
    rewrite Forall_forall in H. apply Nat.eqb_eq. auto.
Qed.

End ArrayFacts.

(** ** The frame loop *)

Section LoopFacts.

Context {R : Type} {N : Num R}.
Variable u : Universe R.
Variables ion_selection partner_selection : string.

(** What the loop body computes at one frame, named after the source's
    variables. *)
Definition frame_ions (f : Z) : AtomGroup := select_atoms u f ion_selection.

Definition frame_partners (f : Z) : AtomGroup :=
  select_atoms u f partner_selection.

Definition frame_rdf (f : Z) : InterRDF R :=
  InterRDF_run u (frame_ions f) (frame_partners f) 150 f (f + 1).

Definition frame_profile (f : Z) : list R :=
  div_int (cumsum (count (frame_rdf f))) (Z.of_nat (length (frame_ions f))).

Definition frame_coord (f : Z) : R := nth 38 (frame_profile f) nzero.

(** A frame is retained when the loop body does not [continue]. *)
Definition is_retained (f : Z) : bool :=
  negb (Nat.eqb (length (frame_ions f)) 0).

Definition retained (frames : list Z) : list Z := filter is_retained frames.

Definition skipped (frames : list Z) : list Z :=
  filter (fun f => negb (is_retained f)) frames.

Definition frame_events (f : Z) : list (event R) :=
  [PrintFrame f; SelectAtoms f ion_selection; SelectAtoms f partner_selection].

(** The accumulators after the samples of the frames [fs] were appended. *)
Definition extend (st : accumulators) (fs : list Z) : accumulators :=
  {| rdf_list := rdf_list st ++ map (fun f => rdf (frame_rdf f)) fs;
     rdf_coord := rdf_coord st ++ map frame_coord fs;
     rdf_cumu := rdf_cumu st ++ map frame_profile fs;
     acc_bins := match acc_bins st with
                 | Some b => Some b
                 | None => match fs with
                           | [] => None
                           | f :: _ => Some (bins (frame_rdf f))
                           end
                 end |}.

Lemma frame_profile_length (f : Z) : length (frame_profile f) = 150.
Proof.
  unfold frame_profile. rewrite div_int_length, cumsum_length.
  apply tabulate_length.
Qed.

Lemma frame_rdf_length (f : Z) : length (rdf (frame_rdf f)) = 150.
Proof. apply tabulate_length. Qed.

Lemma frame_bins_length (f : Z) : length (bins (frame_rdf f)) = 150.
Proof. apply tabulate_length. Qed.

Lemma frame_coord_nth (f : Z) :
  nth_error (frame_profile f) 38 = Some (frame_coord f).
Proof.
  unfold frame_coord. apply nth_error_nth'.
  rewrite frame_profile_length. lia.
Qed.

Lemma extend_nil (st : accumulators) : extend st [] = st.
Proof.
  destruct st as [l c m b]. unfold extend. simpl.
  rewrite !app_nil_r. destruct b; reflexivity.
Qed.

Lemma extend_cons (st : accumulators) (f : Z) (fs : list Z) :
  extend (extend st [f]) fs = extend st (f :: fs).
Proof.
  destruct st as [l c m b]. unfold extend. simpl.
  rewrite <- !app_assoc. simpl. destruct b; reflexivity.
Qed.

Lemma loop_body_spec (f : Z) (st : accumulators) :
  loop_body u ion_selection partner_selection f st
  = (frame_events f,
     Returned (if is_retained f then extend st [f] else st)).
Proof.
  change (loop_body u ion_selection partner_selection f st)
    with (emit (PrintFrame f) ;;;
          emit (SelectAtoms f ion_selection) ;;;
          emit (SelectAtoms f partner_selection) ;;;
          if Nat.eqb (length (frame_ions f)) 0 then ret st
          else match nth_error (frame_profile f) 38 with
               | None => @raise R (@accumulators R) IndexError
               | Some c38 =>
                   ret {| rdf_list := rdf_list st ++ [rdf (frame_rdf f)];
                          rdf_coord := rdf_coord st ++ [c38];
                          rdf_cumu := rdf_cumu st ++ [frame_profile f];
                          acc_bins := match acc_bins st with
                                      | None => Some (bins (frame_rdf f))
                                      | Some b => Some b
                                      end |}
               end).
  rewrite frame_coord_nth. unfold is_retained.
  destruct (Nat.eqb (length (frame_ions f)) 0); reflexivity.
Qed.

Lemma for_frames_spec (frames : list Z) :
  forall st,
    for_frames u ion_selection partner_selection frames st
    = (flat_map frame_events frames, Returned (extend st (retained frames))).
Proof.
  induction frames as [|f frames IH]; intros st; simpl.
  - rewrite extend_nil. reflexivity.
  - rewrite loop_body_spec, bind_returned, IH.
    cbn [fst snd flat_map retained filter].
    destruct (is_retained f); [rewrite extend_cons|]; reflexivity.
Qed.

End LoopFacts.

(** ** analyze_rdf as a whole *)

Section AnalyzeFacts.

Context {R : Type} {N : Num R}.
Variable u : Universe R.
Variables ion_selection partner_selection : string.
Variable region : option (R * R).
Variable frame_range : option (Z * Z).

(** The frames the loop visits and the selection it uses. *)
Definition visited : list Z :=
  trajectory_slice u match frame_range with
                     | None => default_frame_range
                     | Some fr => fr
                     end.

Definition zone_selection : string := region_selection u ion_selection region.

Definition kept : list Z := retained u zone_selection visited.

(** [np.mean(rows, axis=0)] on rows known to be equally long. *)
Definition mean_rows (rows : list (list R)) : ndarray R :=
  match rows with
  | [] => Scalar (ndiv nzero (of_int 0))
  | r :: rest =>
      Array (div_int (sum_axis0 r rest) (Z.of_nat (length rows)))
  end.

Definition first_bins : option (list R) :=
  match kept with
  | [] => None
  | f :: _ => Some (bins (frame_rdf u zone_selection partner_selection f))
  end.

Lemma np_mean_rows_map (g : Z -> list R) (w : nat) (fs : list Z) :
  (forall f, length (g f) = w) ->
  np_mean_rows (map g fs) = Returned (mean_rows (map g fs)).
Proof.
  intros Hw. destruct fs as [|f fs]; [reflexivity|].
  cbn [map]. rewrite np_mean_rows_uniform; [reflexivity|].
  apply Forall_forall. intros r Hr. apply in_map_iff in Hr.
  destruct Hr as [f' [<- _]]. rewrite !Hw. reflexivity.
Qed.

Lemma analyze_rdf_spec :
  analyze_rdf u ion_selection partner_selection region frame_range
  = (flat_map (frame_events zone_selection partner_selection) visited
       ++ [PrintCoordAvg
             (np_mean_scalars
                (map (frame_coord u zone_selection partner_selection) kept))],
     Returned
       (first_bins,
        mean_rows
          (map (fun f => rdf (frame_rdf u zone_selection partner_selection f))
             kept),
        mean_rows
          (map (frame_profile u zone_selection partner_selection) kept),
        map (frame_coord u zone_selection partner_selection) kept)).
Proof.
  unfold analyze_rdf. fold zone_selection. fold visited.
  rewrite for_frames_spec. fold kept.
  rewrite bind_returned.
  cbn [extend init_accumulators rdf_list rdf_coord rdf_cumu acc_bins app].
  fold first_bins.
  rewrite (np_mean_rows_map _ 150) by apply frame_rdf_length.
  rewrite bind_lift_returned, bind_emit.
  rewrite (np_mean_rows_map _ 150) by apply frame_profile_length.
  rewrite bind_lift_returned.
  cbn [ret fst snd]. reflexivity.
Qed.

End AnalyzeFacts.

(** ** Concrete universes *)

(** Selections of a small system: three partner atoms at every frame,
    and one ion at the frames where [present] holds. *)
Definition demo_select (present : Z -> bool) (f : Z) (expr : string)
  : AtomGroup :=
  if String.eqb expr "name OW" then [1; 2; 3]
  else if present f then [0] else [].

(** A universe of [n] frames whose histogram has [b mod 4] pairs in bin
    [b] and the same density [dens] in every bin. *)
Definition demo_universe {R : Type} {N : Num R} (n : Z)
  (present : Z -> bool) (dens : R) : Universe R :=
  {| n_frames := n;
     select_atoms := demo_select present;
     rdf_bin_center := fun nbins b =>
       ndiv (of_int (Z.of_nat (2 * b + 1))) (of_int (Z.of_nat (2 * nbins)));
     rdf_pair_count := fun _ _ _ _ _ b => of_int (Z.of_nat (Nat.modulo b 4));
     rdf_density := fun _ _ _ _ _ _ => dens;
     py_str := fun _ => "1.75" |}.

(** float64 0.1 *)
Definition tenth : float := 0x1.999999999999ap-4%float.

(** Three frames, no ion in any of them. *)
Definition empty_zone : Universe float :=
  demo_universe 3 (fun _ => false) tenth.

(** Three frames, an ion in each. *)
Definition steady_zone : Universe float :=
  demo_universe 3 (fun _ => true) tenth.

(** Three frames, an ion in the first and in the last. *)
Definition drifting_zone : Universe float :=
  demo_universe 3 (fun f => negb (Z.eqb f 1)) tenth.

Definition drifting_zone_Q : Universe Q :=
  demo_universe 3 (fun f => negb (Z.eqb f 1)) (1 # 10)%Q.

(** A trajectory long enough for the default frame range. *)
Definition long_run : Universe float :=
  demo_universe 25000 (fun f => Z.eqb f 20000) tenth.

(** ** Zero retained frames *)

Lemma retained_all_empty {R : Type} (u : Universe R) (sel : string)
  (frames : list Z) :
  (forall f, In f frames -> select_atoms u f sel = []) ->
  retained u sel frames = [].
Proof.
  intros H. unfold retained. induction frames as [|f frames IH]; simpl.
  - reflexivity.
  - unfold is_retained at 1, frame_ions. rewrite (H f) by (left; reflexivity).
    simpl. apply IH. intros g Hg. apply H. right. assumption.
Qed.

(** C1, as the code behaves: when the ion selection is empty on every
    frame of the range, [analyze_rdf] raises nothing.  It returns
    normally with no bin centres, the scalar NaN that [np.mean] gives for
    an empty list in place of both averaged arrays, and an empty list of
    coordination numbers. *)
Theorem C1_empty_zone_returns_nan (u : Universe float)
  (ion_selection partner_selection : string)
  (region : option (float * float)) (frame_range : option (Z * Z))
  (Hempty : forall f, In f (visited u frame_range) ->
              select_atoms u f (zone_selection u ion_selection region) = []) :
  result (analyze_rdf u ion_selection partner_selection region frame_range)
  = Returned (None, Scalar nan, Scalar nan, []).
Proof.
  rewrite analyze_rdf_spec. unfold result, first_bins, kept.
  rewrite (retained_all_empty _ _ _ Hempty). reflexivity.
Qed.

Lemma C1_empty_zone_returns_nan_witness :
  (forall f, In f (visited empty_zone (Some (0, 3)%Z)) ->
     select_atoms empty_zone f (zone_selection empty_zone "name CL" None) = [])
  /\ result (analyze_rdf empty_zone "name CL" "name OW" None (Some (0, 3)%Z))
     = Returned (None, Scalar nan, Scalar nan, []).
Proof.
  assert (H : forall f, In f (visited empty_zone (Some (0, 3)%Z)) ->
     select_atoms empty_zone f (zone_selection empty_zone "name CL" None) = []).
  { intros f _. reflexivity. }
  split; [exact H|].
  exact (C1_empty_zone_returns_nan empty_zone "name CL" "name OW" None
           (Some (0, 3)%Z) H).
Defined.

(** C1 as stated fails: on a three-frame trajectory whose ion selection
    is empty at every frame, [analyze_rdf] returns instead of raising. *)
Lemma C1_no_error_counterexample :
  visited empty_zone (Some (0, 3)%Z) = [0; 1; 2]%Z
  /\ kept empty_zone "name CL" None (Some (0, 3)%Z) = []
  /\ (forall e, result (analyze_rdf empty_zone "name CL" "name OW" None
                          (Some (0, 3)%Z)) <> Raised e)
  /\ result (analyze_rdf empty_zone "name CL" "name OW" None (Some (0, 3)%Z))
     = Returned (None, Scalar nan, Scalar nan, []).
Proof.
  assert (E : result (analyze_rdf empty_zone "name CL" "name OW" None
                        (Some (0, 3)%Z))
              = Returned (None, Scalar nan, Scalar nan, []))
    by (vm_compute; reflexivity).
  split; [vm_compute; reflexivity|].
  split; [vm_compute; reflexivity|].
  split; [|exact E].
  intros e He. rewrite E in He. discriminate.
Qed.

(** ** Skipped frames and the denominators of the averages *)

Section Means.

Context {R : Type} {N : Num R}.

(** The unweighted arithmetic mean of the values [xs] over [n] samples:
    their left-to-right sum divided by [n]. *)
Definition arith_mean (xs : list R) (n : nat) : R :=
  match xs with
  | [] => ndiv nzero (of_int 0)
  | x :: rest => ndiv (fold_left nadd rest x) (of_int (Z.of_nat n))
  end.

(** Entry [j] of the sample of each frame in [fs]. *)
Definition column (g : Z -> list R) (fs : list Z) (j : nat) : list R :=
  map (fun f => nth j (g f) nzero) fs.

Lemma mean_rows_columns (g : Z -> list R) (w : nat) (fs : list Z) :
  (forall f, length (g f) = w) -> fs <> [] ->
  mean_rows (map g fs)
  = Array (map (fun j => arith_mean (column g fs j) (length fs)) (seq 0 w)).
Proof.
  intros Hw Hne. destruct fs as [|f rest]; [congruence|].
  cbn [map mean_rows]. f_equal. apply nth_error_ext. intros j.
  assert (Hu : Forall (fun r' => length r' = length (g f)) (map g rest)).
  { apply Forall_forall. intros r Hr. apply in_map_iff in Hr.
    destruct Hr as [f' [<- _]]. rewrite !Hw. reflexivity. }
  unfold div_int. rewrite !nth_error_map.
  destruct (Nat.lt_ge_cases j w) as [Hj|Hj].
  - rewrite nth_error_seq.
    destruct (Nat.ltb_spec j w) as [_|Hc]; [|lia].
    assert (Ha : nth_error (g f) j = Some (nth j (g f) nzero)).
    { apply nth_error_nth'. rewrite Hw. assumption. }
    rewrite (sum_axis0_nth _ j (g f) _ Ha Hu).
    cbn [option_map column arith_mean map length Nat.add].
    rewrite map_map, length_map. reflexivity.
  - rewrite nth_error_seq.
    destruct (Nat.ltb_spec j w) as [Hc|_]; [lia|].
    replace (nth_error (sum_axis0 (g f) (map g rest)) j) with (@None R).
    + reflexivity.
    + symmetry. apply nth_error_None.
      rewrite sum_axis0_length by assumption. rewrite Hw. assumption.
Qed.

Lemma np_mean_scalars_arith (xs : list R) :
  np_mean_scalars xs = Scalar (arith_mean xs (length xs)).
Proof. destruct xs; reflexivity. Qed.

Lemma retained_skipped_length (u : Universe R) (sel : string)
  (frames : list Z) :
  length (retained u sel frames) + length (skipped u sel frames)
  = length frames.
Proof.
  unfold retained, skipped. induction frames as [|f frames IH]; simpl.
  - reflexivity.
  - destruct (is_retained u sel f); simpl; lia.
Qed.

Lemma loop_body_skip (u : Universe R) (sel psel : string) (f : Z)
  (st : accumulators) :
  select_atoms u f sel = [] ->
  loop_body u sel psel f st = (frame_events sel psel f, Returned st).
Proof.
  intros H. rewrite loop_body_spec. unfold is_retained, frame_ions.
  rewrite H. reflexivity.
Qed.

End Means.

(** C2: a frame whose ion selection is empty leaves every accumulator as
    it was and raises nothing; the per-frame coordination numbers that
    are returned are those of the retained frames; each entry of the
    averaged RDF and of the averaged cumulative profile, and the
    coordination-number average the function reports, is the sum over
    the retained frames divided by the number of retained frames, which
    is the number of visited frames less the skipped ones. *)
Theorem C2_skipped_frames_and_means {R : Type} {N : Num R} (u : Universe R)
  (ion_selection partner_selection : string)
  (region : option (R * R)) (frame_range : option (Z * Z)) :
  let sel := zone_selection u ion_selection region in
  let frames := visited u frame_range in
  let fs := kept u ion_selection region frame_range in
  let run := analyze_rdf u ion_selection partner_selection region frame_range in
  (forall f st, select_atoms u f sel = [] ->
     loop_body u sel partner_selection f st
     = (frame_events sel partner_selection f, Returned st))
  /\ length fs + length (skipped u sel frames) = length frames
  /\ (exists rdf_avg cumu_avg,
        result run
        = Returned (first_bins u ion_selection partner_selection region
                      frame_range,
                    rdf_avg, cumu_avg,
                    map (frame_coord u sel partner_selection) fs)
        /\ (fs <> [] ->
            rdf_avg
            = Array (map (fun j =>
                            arith_mean
                              (column (fun f => rdf (frame_rdf u sel
                                                      partner_selection f))
                                 fs j)
                              (length fs))
                       (seq 0 150))
            /\ cumu_avg
               = Array (map (fun j =>
                               arith_mean
                                 (column (frame_profile u sel
                                            partner_selection) fs j)
                                 (length fs))
                          (seq 0 150))))
  /\ In (PrintCoordAvg
           (Scalar (arith_mean (map (frame_coord u sel partner_selection) fs)
                      (length fs))))
        (trace run).
Proof.
  intros sel frames fs run. split; [|split; [|split]].
  - intros f st H. apply loop_body_skip. assumption.
  - apply retained_skipped_length.
  - eexists. eexists. split.
    + unfold run. rewrite analyze_rdf_spec. reflexivity.
    + intros Hne. split.
      * apply (mean_rows_columns _ 150); [|assumption].
        intros f. apply frame_rdf_length.
      * apply (mean_rows_columns _ 150); [|assumption].
        intros f. apply frame_profile_length.
  - unfold run. rewrite analyze_rdf_spec. unfold trace. cbn [fst].
    apply in_or_app. right. left.
    rewrite np_mean_scalars_arith, length_map. reflexivity.
Qed.

(** ** Per-frame coordination profile *)

Lemma frame_profile_nth {R : Type} {N : Num R} (u : Universe R)
  (sel psel : string) (f : Z) (i : nat) :
  i < 150 ->
  nth_error (frame_profile u sel psel f) i
  = Some (ndiv (prefix_sum (count (frame_rdf u sel psel f)) i)
               (of_int (Z.of_nat (length (select_atoms u f sel))))).
Proof.
  intros Hi. unfold frame_profile, div_int. rewrite nth_error_map.
  rewrite cumsum_nth.
  - reflexivity.
  - unfold frame_rdf, InterRDF_run. cbn [count].
    rewrite tabulate_length. assumption.
Qed.

(** C3: at a frame with a non-empty ion selection the loop body appends
    to [rdf_cumu] a profile of 150 entries whose entry [i] is the sum of
    the histogram counts of bins 0..i divided by the number of selected
    ions, and appends to [rdf_coord] entry 38 of that profile. *)
Theorem C3_profile_and_coordination {R : Type} {N : Num R} (u : Universe R)
  (sel psel : string) (f : Z) (st : accumulators)
  (Hions : select_atoms u f sel <> []) :
  exists profile coord,
    result (loop_body u sel psel f st)
    = Returned {| rdf_list := rdf_list st ++ [rdf (frame_rdf u sel psel f)];
                  rdf_coord := rdf_coord st ++ [coord];
                  rdf_cumu := rdf_cumu st ++ [profile];
                  acc_bins := match acc_bins st with
                              | Some b => Some b
                              | None => Some (bins (frame_rdf u sel psel f))
                              end |}
    /\ length (count (frame_rdf u sel psel f)) = 150
    /\ length profile = 150
    /\ (forall i, i < 150 ->
          nth_error profile i
          = Some (ndiv (prefix_sum (count (frame_rdf u sel psel f)) i)
                       (of_int (Z.of_nat (length (select_atoms u f sel))))))
    /\ nth_error profile 38 = Some coord.
Proof.
  exists (frame_profile u sel psel f), (frame_coord u sel psel f).
  split; [|split; [|split; [|split]]].
  - rewrite loop_body_spec. unfold result, is_retained, frame_ions. cbn [snd].
    destruct (select_atoms u f sel) as [|a l]; [congruence|]. reflexivity.
  - apply tabulate_length.
  - apply frame_profile_length.
  - intros i Hi. apply frame_profile_nth. assumption.
  - apply frame_coord_nth.
Qed.

Lemma C3_profile_and_coordination_witness :
  select_atoms steady_zone 0%Z "name CL" <> []
  /\ exists profile coord,
       result (loop_body steady_zone "name CL" "name OW" 0%Z init_accumulators)
       = Returned
           {| rdf_list :=
                [] ++ [rdf (frame_rdf steady_zone "name CL" "name OW" 0%Z)];
              rdf_coord := [] ++ [coord];
              rdf_cumu := [] ++ [profile];
              acc_bins :=
                Some (bins (frame_rdf steady_zone "name CL" "name OW" 0%Z)) |}
       /\ length (count (frame_rdf steady_zone "name CL" "name OW" 0%Z)) = 150
       /\ length profile = 150
       /\ (forall i, i < 150 ->
             nth_error profile i
             = Some (ndiv (prefix_sum
                             (count (frame_rdf steady_zone "name CL" "name OW"
                                       0%Z)) i)
                          (of_int (Z.of_nat
                                     (length (select_atoms steady_zone 0%Z
                                                "name CL"))))))
       /\ nth_error profile 38 = Some coord.
Proof.
  assert (H : select_atoms steady_zone 0%Z "name CL" <> [])
    by (vm_compute; discriminate).
  split; [exact H|].
  exact (C3_profile_and_coordination steady_zone "name CL" "name OW" 0%Z
           init_accumulators H).
Defined.

(** The coordination numbers [analyze_rdf] returns, frame by frame. *)
Lemma returned_coordination {R : Type} {N : Num R} (u : Universe R)
  (ion_selection partner_selection : string)
  (region : option (R * R)) (frame_range : option (Z * Z)) :
  let sel := zone_selection u ion_selection region in
  exists b r c,
    result (analyze_rdf u ion_selection partner_selection region frame_range)
    = Returned
        (b, r, c,
         map (fun f =>
                ndiv (prefix_sum (count (frame_rdf u sel partner_selection f))
                        38)
                     (of_int (Z.of_nat (length (select_atoms u f sel)))))
           (kept u ion_selection region frame_range)).
Proof.
  intros sel. rewrite analyze_rdf_spec. unfold result. cbn [snd].
  eexists. eexists. eexists.
  rewrite (map_ext (frame_coord u (zone_selection u ion_selection region)
                      partner_selection)
             (fun f =>
                ndiv (prefix_sum (count (frame_rdf u sel partner_selection f))
                        38)
                     (of_int (Z.of_nat (length (select_atoms u f sel)))))).
  - reflexivity.
  - intros f.
    assert (H := frame_coord_nth u (zone_selection u ion_selection region)
                   partner_selection f).
    rewrite frame_profile_nth in H by lia.
    apply (f_equal (fun o => match o with Some x => x | None => nzero end)) in H.
    symmetry. exact H.
Qed.

(** ** Reading a trace *)

(** The [select_atoms] calls of a trace, each with the frame the
    trajectory was at. *)
Definition select_calls {R : Type} (t : list (event R)) : list (Z * string) :=
  flat_map (fun e => match e with
                     | SelectAtoms f expr => [(f, expr)]
                     | _ => []
                     end) t.

(** The frame numbers announced at the top of the loop body. *)
Definition printed_frames {R : Type} (t : list (event R)) : list Z :=
  flat_map (fun e => match e with
                     | PrintFrame f => [f]
                     | _ => []
                     end) t.

(** The files written, in order. *)
Definition written_files {R : Type} (t : list (event R))
  : list (string * string * file R) :=
  flat_map (fun e => match e with
                     | WriteFile d n c => [(d, n, c)]
                     | _ => []
                     end) t.

Lemma select_calls_app {R : Type} (t1 t2 : list (event R)) :
  select_calls (t1 ++ t2) = select_calls t1 ++ select_calls t2.
Proof. apply flat_map_app. Qed.

Lemma printed_frames_app {R : Type} (t1 t2 : list (event R)) :
  printed_frames (t1 ++ t2) = printed_frames t1 ++ printed_frames t2.
Proof. apply flat_map_app. Qed.

Lemma written_files_app {R : Type} (t1 t2 : list (event R)) :
  written_files (t1 ++ t2) = written_files t1 ++ written_files t2.
Proof. apply flat_map_app. Qed.

Lemma select_calls_frames {R : Type} (sel psel : string) (frames : list Z) :
  select_calls (flat_map (@frame_events R sel psel) frames)
  = flat_map (fun f => [(f, sel); (f, psel)]) frames.
Proof.
  induction frames as [|f frames IH]; [reflexivity|].
  cbn [flat_map]. rewrite select_calls_app, IH. reflexivity.
Qed.

Lemma printed_frames_frames {R : Type} (sel psel : string) (frames : list Z) :
  printed_frames (flat_map (@frame_events R sel psel) frames) = frames.
Proof.
  induction frames as [|f frames IH]; [reflexivity|].
  cbn [flat_map]. rewrite printed_frames_app, IH. reflexivity.
Qed.

Lemma written_files_frames {R : Type} (sel psel : string) (frames : list Z) :
  written_files (flat_map (@frame_events R sel psel) frames) = [].
Proof.
  induction frames as [|f frames IH]; [reflexivity|].
  cbn [flat_map]. rewrite written_files_app, IH. reflexivity.
Qed.

(** ** Region predicate and per-frame selection *)

(** C4: with radial bounds the ion selection becomes the given expression
    followed, once, by [" and cylayer {lower} {upper} 10 -10"]; the loop
    then calls [select_atoms] twice at every visited frame, with that
    expression and with the partner expression, and a frame is retained
    according to the atoms the expression selects at that frame. *)
Theorem C4_region_predicate_and_dynamic_selection {R : Type} {N : Num R}
  (u : Universe R) (ion_selection partner_selection : string)
  (lower upper : R) (frame_range : option (Z * Z)) :
  let sel := (ion_selection ++ " and cylayer " ++ py_str u lower ++ " "
                ++ py_str u upper ++ " 10 -10")%string in
  let run := analyze_rdf u ion_selection partner_selection
               (Some (lower, upper)) frame_range in
  zone_selection u ion_selection (Some (lower, upper)) = sel
  /\ select_calls (trace run)
     = flat_map (fun f => [(f, sel); (f, partner_selection)])
         (visited u frame_range)
  /\ kept u ion_selection (Some (lower, upper)) frame_range
     = filter (fun f => negb (Nat.eqb (length (select_atoms u f sel)) 0))
         (visited u frame_range)
  /\ exists b r c,
       result run
       = Returned
           (b, r, c,
            map (fun f =>
                   nth 38
                     (div_int
                        (cumsum
                           (count (InterRDF_run u (select_atoms u f sel)
                                     (select_atoms u f partner_selection)
                                     150 f (f + 1))))
                        (Z.of_nat (length (select_atoms u f sel))))
                     nzero)
              (kept u ion_selection (Some (lower, upper)) frame_range)).
Proof.
  intros sel run. split; [reflexivity|]. split; [|split; [reflexivity|]].
  - unfold run. rewrite analyze_rdf_spec. unfold trace. cbn [fst].
    rewrite select_calls_app, select_calls_frames.
    cbn [select_calls flat_map]. rewrite app_nil_r. reflexivity.
  - unfold run. rewrite analyze_rdf_spec. unfold result. cbn [snd].
    eexists. eexists. eexists. reflexivity.
Qed.

(** Without bounds the expression is used as given. *)
Lemma no_region_selection {R : Type} {N : Num R} (u : Universe R)
  (ion_selection partner_selection : string) (frame_range : option (Z * Z)) :
  select_calls (trace (analyze_rdf u ion_selection partner_selection None
                         frame_range))
  = flat_map (fun f => [(f, ion_selection); (f, partner_selection)])
      (visited u frame_range).
Proof.
  rewrite analyze_rdf_spec. unfold trace. cbn [fst].
  rewrite select_calls_app, select_calls_frames.
  cbn [select_calls flat_map]. rewrite app_nil_r. reflexivity.
Qed.

(** ** Bin centres *)

Lemma loop_body_keeps_bins {R : Type} {N : Num R} (u : Universe R)
  (sel psel : string) (f : Z) (st : accumulators) (b : list R) :
  acc_bins st = Some b ->
  exists st', result (loop_body u sel psel f st) = Returned st'
              /\ acc_bins st' = Some b.
Proof.
  intros Hb. rewrite loop_body_spec. unfold result. cbn [snd].
  destruct (is_retained u sel f).
  - eexists. split; [reflexivity|]. unfold extend. cbn [acc_bins].
    rewrite Hb. reflexivity.
  - exists st. split; [reflexivity|assumption].
Qed.

Lemma for_frames_keeps_bins {R : Type} {N : Num R} (u : Universe R)
  (sel psel : string) (frames : list Z) (st : accumulators) (b : list R) :
  acc_bins st = Some b ->
  exists st', result (for_frames u sel psel frames st) = Returned st'
              /\ acc_bins st' = Some b.
Proof.
  intros Hb. rewrite for_frames_spec. unfold result. cbn [snd].
  eexists. split; [reflexivity|]. unfold extend. cbn [acc_bins].
  rewrite Hb. reflexivity.
Qed.

(** C5: the bin centres returned are those of the first retained frame
    (none when no frame is retained); the loop sets [bins] at the first
    retained frame it meets and no later frame changes it; and every
    frame of the zone computes the same bin centres. *)
Theorem C5_bin_centers_fixed_by_first_retained_frame {R : Type} {N : Num R}
  (u : Universe R) (ion_selection partner_selection : string)
  (region : option (R * R)) (frame_range : option (Z * Z)) :
  let sel := zone_selection u ion_selection region in
  let fs := kept u ion_selection region frame_range in
  (exists r c k,
     result (analyze_rdf u ion_selection partner_selection region frame_range)
     = Returned (match fs with
                 | [] => None
                 | f0 :: _ => Some (bins (frame_rdf u sel partner_selection f0))
                 end, r, c, k))
  /\ (forall f st, acc_bins st = None -> select_atoms u f sel <> [] ->
        exists st',
          result (loop_body u sel partner_selection f st) = Returned st'
          /\ acc_bins st' = Some (bins (frame_rdf u sel partner_selection f)))
  /\ (forall f st, acc_bins st = None -> select_atoms u f sel = [] ->
        exists st',
          result (loop_body u sel partner_selection f st) = Returned st'
          /\ acc_bins st' = None)
  /\ (forall frames st b, acc_bins st = Some b ->
        exists st',
          result (for_frames u sel partner_selection frames st) = Returned st'
          /\ acc_bins st' = Some b)
  /\ (forall f g, bins (frame_rdf u sel partner_selection f)
                  = bins (frame_rdf u sel partner_selection g))
  /\ (forall f, In f fs ->
        first_bins u ion_selection partner_selection region frame_range
        = Some (bins (frame_rdf u sel partner_selection f))).
Proof.
  intros sel fs. split; [|split; [|split; [|split; [|split]]]].
  - rewrite analyze_rdf_spec. unfold result. cbn [snd].
    eexists. eexists. eexists. reflexivity.
  - intros f st Hb Hions. rewrite loop_body_spec. unfold result. cbn [snd].
    unfold is_retained, frame_ions.
    destruct (select_atoms u f sel) as [|a l] eqn:E; [congruence|].
    cbn [length Nat.eqb negb]. eexists. split; [reflexivity|].
    unfold extend. cbn [acc_bins]. rewrite Hb. reflexivity.
  - intros f st Hb Hions. rewrite loop_body_skip by assumption.
    exists st. split; [reflexivity|assumption].
  - intros frames st b Hb. apply for_frames_keeps_bins. assumption.
  - intros f g. reflexivity.
  - intros f Hf. unfold first_bins. fold sel. fold fs.
    destruct fs as [|f0 rest]; [destruct Hf|]. reflexivity.
Qed.

(** ** Frame range *)

Lemma py_range_In (a b f : Z) : In f (py_range a b) <-> (a <= f < b)%Z.
Proof.
  unfold py_range. rewrite in_map_iff. split.
  - intros [k [<- Hk]]. apply in_seq in Hk. lia.
  - intros H. exists (Z.to_nat (f - a)). split; [lia|].
    apply in_seq. lia.
Qed.

Lemma py_range_length (a b : Z) : length (py_range a b) = Z.to_nat (b - a).
Proof. unfold py_range. rewrite length_map, length_seq. reflexivity. Qed.

(** The default range as a slice of a trajectory of any length. *)
Lemma visited_default {R : Type} (u : Universe R) :
  visited u None
  = py_range 20000 (if (n_frames u <? 25000)%Z then n_frames u else 25000).
Proof. reflexivity. Qed.

Lemma visited_default_In {R : Type} (u : Universe R) (f : Z) :
  In f (visited u None) <-> (20000 <= f < 25000 /\ f < n_frames u)%Z.
Proof.
  rewrite visited_default, py_range_In.
  destruct (Z.ltb_spec (n_frames u) 25000); lia.
Qed.

Lemma printed_frames_analyze {R : Type} {N : Num R} (u : Universe R)
  (ion_selection partner_selection : string)
  (region : option (R * R)) (frame_range : option (Z * Z)) :
  printed_frames
    (trace (analyze_rdf u ion_selection partner_selection region frame_range))
  = visited u frame_range.
Proof.
  rewrite analyze_rdf_spec. unfold trace. cbn [fst].
  rewrite printed_frames_app, printed_frames_frames.
  cbn [printed_frames flat_map]. apply app_nil_r.
Qed.

(** C6: called without a frame range on a trajectory that has the frames
    of the default range, the loop visits frame 20000, 20001, ..., 24999,
    each once and in this order, and no other frame. *)
Theorem C6_default_frame_range {R : Type} {N : Num R} (u : Universe R)
  (ion_selection partner_selection : string) (region : option (R * R))
  (Hlen : (25000 <= n_frames u)%Z) :
  let frames := printed_frames
                  (trace (analyze_rdf u ion_selection partner_selection
                            region None)) in
  frames = py_range 20000 25000
  /\ length frames = 5000
  /\ (forall f, In f frames <-> (20000 <= f < 25000)%Z)
  /\ frames
     = printed_frames
         (trace (analyze_rdf u ion_selection partner_selection region
                   (Some (20000, 25000)%Z))).
Proof.
  intros frames.
  assert (E : frames = py_range 20000 25000).
  { unfold frames. rewrite printed_frames_analyze, visited_default.
    destruct (Z.ltb_spec (n_frames u) 25000); [lia|reflexivity]. }
  split; [exact E|]. split; [|split].
  - rewrite E, py_range_length. reflexivity.
  - intros f. rewrite E. apply py_range_In.
  - unfold frames. rewrite !printed_frames_analyze. reflexivity.
Qed.

Lemma C6_default_frame_range_witness :
  (25000 <= n_frames long_run)%Z
  /\ printed_frames
       (trace (analyze_rdf long_run "name CL" "name OW" None None))
     = py_range 20000 25000.
Proof.
  assert (H : (25000 <= n_frames long_run)%Z) by (vm_compute; discriminate).
  split; [exact H|].
  exact (proj1 (C6_default_frame_range long_run "name CL" "name OW" None H)).
Defined.

(** ** Safety of the loop body *)

Lemma analyze_rdf_returns {R : Type} {N : Num R} (u : Universe R)
  (ion_selection partner_selection : string)
  (region : option (R * R)) (frame_range : option (Z * Z)) :
  exists v,
    result (analyze_rdf u ion_selection partner_selection region frame_range)
    = Returned v.
Proof. rewrite analyze_rdf_spec. eexists. reflexivity. Qed.

(** C10: the loop body never raises.  A frame is skipped exactly when its
    ion selection has length 0; at any other frame the divisor
    [len(ions)] is positive, the cumulative-count array has the 150
    entries of the histogram, and the read at index 38 finds an entry. *)
Theorem C10_division_and_index_safe {R : Type} {N : Num R} (u : Universe R)
  (sel psel : string) (f : Z) (st : accumulators) :
  let ions := select_atoms u f sel in
  let r := InterRDF_run u ions (select_atoms u f psel) 150 f (f + 1) in
  let cnt := div_int (cumsum (count r)) (Z.of_nat (length ions)) in
  (exists st', result (loop_body u sel psel f st) = Returned st')
  /\ (length ions = 0 -> result (loop_body u sel psel f st) = Returned st)
  /\ (length ions <> 0 ->
      (0 < Z.of_nat (length ions))%Z
      /\ length (cumsum (count r)) = 150
      /\ length cnt = 150
      /\ (exists c38,
            nth_error cnt 38 = Some c38
            /\ result (loop_body u sel psel f st)
               = Returned
                   {| rdf_list := rdf_list st ++ [rdf r];
                      rdf_coord := rdf_coord st ++ [c38];
                      rdf_cumu := rdf_cumu st ++ [cnt];
                      acc_bins := match acc_bins st with
                                  | None => Some (bins r)
                                  | Some b => Some b
                                  end |})).
Proof.
  intros ions r cnt.
  assert (Hcum : length (cumsum (count r)) = 150).
  { rewrite cumsum_length. apply tabulate_length. }
  assert (Hcnt : length cnt = 150).
  { unfold cnt. rewrite div_int_length. exact Hcum. }
  split; [|split].
  - rewrite loop_body_spec. eexists. reflexivity.
  - intros H0. apply (f_equal snd (loop_body_skip u sel psel f st
                                     (proj1 (length_zero_iff_nil _) H0))).
  - intros Hne. split; [lia|]. split; [exact Hcum|]. split; [exact Hcnt|].
    destruct (nth_error cnt 38) as [c38|] eqn:E.
    + exists c38. split; [reflexivity|].
      rewrite loop_body_spec. unfold result. cbn [snd].
      unfold is_retained, frame_ions. fold ions.
      destruct (Nat.eqb_spec (length ions) 0) as [H0|_]; [contradiction|].
      cbn [negb]. unfold extend. cbn [rdf_list rdf_coord rdf_cumu acc_bins map].
      assert (Hc : frame_coord u sel psel f = c38).
      { assert (H := frame_coord_nth u sel psel f).
        change (frame_profile u sel psel f) with cnt in H. congruence. }
      rewrite Hc. reflexivity.
    + apply nth_error_None in E. lia.
Qed.

(** ** Monotone profiles *)

#[export] Instance OrderedNum_Q : OrderedNum Q.
Proof.
  refine {| nle := Qle |}.
  - intros x _. apply Qle_refl.
  - exact Qle_trans.
  - intros x c _ Hc. cbn in *.
    rewrite <- (Qplus_0_r x) at 1.
    apply Qplus_le_compat; [apply Qle_refl|exact Hc].
  - intros a b c d _ _ Hab Hcd. cbn. apply Qplus_le_compat; assumption.
  - intros a n Hn Ha. cbn in *. apply Qle_shift_div_l.
    + unfold Qlt. cbn. lia.
    + rewrite Qmult_0_l. exact Ha.
  - intros a b n Hn _ Hab. cbn. unfold Qdiv.
    apply Qmult_le_compat_r; [exact Hab|].
    apply Qinv_le_0_compat. unfold Qle. cbn. lia.
Defined.

Section Monotone.

Context {R : Type} {N : Num R} {O : OrderedNum R}.

(** Non-decreasing in the index. *)
Definition nondecreasing (xs : list R) : Prop :=
  forall i j a b, i <= j ->
    nth_error xs i = Some a -> nth_error xs j = Some b -> nle a b.

(** Non-negative entries, each at most the next one. *)
Definition rising (xs : list R) : Prop :=
  Forall (nle nzero) xs /\ Sorted nle xs.

Lemma rising_nil : rising [].
Proof. split; constructor. Qed.

Lemma rising_cons (x : R) (xs : list R) :
  nle nzero x -> rising xs -> HdRel nle x xs -> rising (x :: xs).
Proof.
  intros Hx [Hpos Hs] Hh. split; constructor; assumption.
Qed.

Lemma rising_inv (x : R) (xs : list R) :
  rising (x :: xs) -> nle nzero x /\ rising xs /\ HdRel nle x xs.
Proof.
  intros [Hpos Hs]. inversion Hpos; subst. inversion Hs; subst.
  repeat split; assumption.
Qed.

Lemma rising_nondecreasing (xs : list R) : rising xs -> nondecreasing xs.
Proof.
  intros [Hpos Hs].
  assert (Hss : StronglySorted nle xs).
  { apply Sorted_StronglySorted; [|assumption].
    intros x y z. apply nle_trans. }
  clear Hs. induction Hss as [|x xs Hs IH Hx]; intros i j a b Hij Ha Hb.
  - destruct i; discriminate.
  - inversion Hpos as [|? ? Hx0 Hxs0]; subst.
    destruct i as [|i], j as [|j]; cbn in Ha, Hb; try lia.
    + injection Ha as <-. injection Hb as <-. apply nle_refl. assumption.
    + injection Ha as <-. rewrite Forall_forall in Hx. apply Hx.
      apply nth_error_In with j. assumption.
    + apply (IH Hxs0 i j); [lia|assumption|assumption].
Qed.

Lemma cumsum_from_rising (xs : list R) :
  Forall (nle nzero) xs ->
  forall acc, nle nzero acc -> rising (acc :: cumsum_from acc xs).
Proof.
  induction 1 as [|x xs Hx Hxs IH]; intros acc Hacc; cbn [cumsum_from].
  - apply rising_cons; [assumption|apply rising_nil|constructor].
  - assert (Hstep : nle acc (nadd acc x)) by (apply nadd_nonneg; assumption).
    apply rising_cons; [assumption| |constructor; exact Hstep].
    apply IH. apply nle_trans with acc; assumption.
Qed.

Lemma cumsum_rising (xs : list R) :
  Forall (nle nzero) xs -> rising (cumsum xs).
Proof.
  intros H. destruct xs as [|x xs]; [apply rising_nil|].
  cbn [cumsum]. inversion H; subst. apply cumsum_from_rising; assumption.
Qed.

Lemma div_int_rising (xs : list R) (n : Z) :
  (0 < n)%Z -> rising xs -> rising (div_int xs n).
Proof.
  intros Hn. unfold div_int. induction xs as [|x xs IH]; intros H.
  - apply rising_nil.
  - apply rising_inv in H. destruct H as [Hx [Hxs Hh]]. cbn [map].
    apply rising_cons.
    + apply ndiv_nonneg; assumption.
    + apply IH. assumption.
    + destruct Hh as [|y ys Hxy]; cbn [map]; constructor.
      apply ndiv_mono; assumption.
Qed.

Lemma add_rows_rising (acc : list R) :
  forall row, rising acc -> rising row -> rising (add_rows acc row).
Proof.
  induction acc as [|a acc IH]; intros row Hacc Hrow; [apply rising_nil|].
  destruct row as [|x row]; [apply rising_nil|].
  apply rising_inv in Hacc. destruct Hacc as [Ha [Hacc Hha]].
  apply rising_inv in Hrow. destruct Hrow as [Hx [Hrow Hhx]].
  cbn [add_rows]. apply rising_cons.
  - apply nle_trans with a; [assumption|]. apply nadd_nonneg; assumption.
  - apply IH; assumption.
  - destruct Hha as [|a' acc' Haa']; [constructor|].
    destruct Hhx as [|x' row' Hxx']; [constructor|].
    cbn [add_rows]. constructor. apply nadd_mono; assumption.
Qed.

Lemma sum_axis0_rising (rows : list (list R)) :
  Forall rising rows -> forall r, rising r -> rising (sum_axis0 r rows).
Proof.
  unfold sum_axis0. induction 1 as [|r1 rows H1 Hrows IH]; intros r Hr.
  - assumption.
  - cbn [fold_left]. apply IH. apply add_rows_rising; assumption.
Qed.

Lemma mean_rows_rising (rows : list (list R)) :
  Forall rising rows ->
  match mean_rows rows with
  | Array avg => rising avg
  | Scalar _ => rows = []
  end.
Proof.
  intros H. destruct rows as [|r rest]; [reflexivity|].
  cbn [mean_rows]. inversion H as [|? ? Hr Hrest]; subst.
  apply div_int_rising; [cbn [length]; lia|].
  apply sum_axis0_rising; assumption.
Qed.

Lemma frame_profile_rising (u : Universe R) (sel psel : string) (f : Z) :
  select_atoms u f sel <> [] ->
  Forall (nle nzero) (count (frame_rdf u sel psel f)) ->
  rising (frame_profile u sel psel f).
Proof.
  intros Hions Hc. unfold frame_profile. apply div_int_rising.
  - unfold frame_ions. destruct (select_atoms u f sel); [congruence|].
    cbn [length]. lia.
  - apply cumsum_rising. assumption.
Qed.

Lemma retained_In (u : Universe R) (sel : string) (frames : list Z) (f : Z) :
  In f (retained u sel frames) -> In f frames /\ select_atoms u f sel <> [].
Proof.
  unfold retained. rewrite filter_In. intros [Hin Hr]. split; [assumption|].
  unfold is_retained, frame_ions in Hr. intros E. rewrite E in Hr. discriminate.
Qed.

End Monotone.

(** C7: in an arithmetic with the order laws of [OrderedNum], if the
    histogram counts of the retained frames are
    non-negative then the cumulative profile of every retained frame is
    non-decreasing in the bin index, and so is the frame-averaged
    cumulative profile that [analyze_rdf] returns (an array as soon as
    one frame is retained). *)
Theorem C7_cumulative_profile_nondecreasing {R : Type} {N : Num R}
  {O : OrderedNum R} (u : Universe R)
  (ion_selection partner_selection : string)
  (region : option (R * R)) (frame_range : option (Z * Z))
  (Hcounts : forall f, In f (kept u ion_selection region frame_range) ->
     Forall (nle nzero)
       (count (frame_rdf u (zone_selection u ion_selection region)
                 partner_selection f))) :
  let sel := zone_selection u ion_selection region in
  let fs := kept u ion_selection region frame_range in
  (forall f, In f fs ->
     (0 < Z.of_nat (length (select_atoms u f sel)))%Z
     /\ nondecreasing (frame_profile u sel partner_selection f))
  /\ exists b r c k,
       result (analyze_rdf u ion_selection partner_selection region
                 frame_range)
       = Returned (b, r, c, k)
       /\ match c with
          | Array cumu_avg => fs <> [] /\ length cumu_avg = 150
                              /\ nondecreasing cumu_avg
          | Scalar _ => fs = []
          end.
Proof.
  intros sel fs.
  assert (Hsorted : forall f, In f fs ->
            rising (frame_profile u sel partner_selection f)).
  { intros f Hf. apply frame_profile_rising.
    - apply (retained_In _ _ _ _ Hf).
    - apply Hcounts. assumption. }
  split.
  - intros f Hf. split.
    + destruct (retained_In _ _ _ _ Hf) as [_ Hne].
      destruct (select_atoms u f sel) eqn:E; [destruct (Hne E)|].
      cbn [length]. lia.
    + apply rising_nondecreasing. apply Hsorted. assumption.
  - rewrite analyze_rdf_spec. unfold result. cbn [snd].
    eexists. eexists. eexists. eexists. split; [reflexivity|].
    fold sel. fold fs.
    assert (Hall : Forall rising
                     (map (frame_profile u sel partner_selection) fs)).
    { apply Forall_forall. intros p Hp. apply in_map_iff in Hp.
      destruct Hp as [f [<- Hf]]. apply Hsorted. assumption. }
    assert (Hm := mean_rows_rising _ Hall).
    destruct fs as [|f0 rest] eqn:Efs.
    + reflexivity.
    + cbn [map mean_rows] in *. split; [discriminate|]. split.
      * rewrite div_int_length, sum_axis0_length.
        -- apply frame_profile_length.
        -- apply Forall_forall. intros p Hp. apply in_map_iff in Hp.
           destruct Hp as [f [<- _]]. rewrite !frame_profile_length.
           reflexivity.
      * apply rising_nondecreasing. exact Hm.
Qed.

Lemma demo_counts_nonneg (present : Z -> bool) (sel psel : string) (f : Z) :
  Forall (Qle 0)
    (count (frame_rdf (demo_universe 3 present (1 # 10)%Q) sel psel f)).
Proof.
  apply Forall_forall. intros x Hx.
  unfold frame_rdf, InterRDF_run in Hx. cbn [count] in Hx.
  unfold tabulate in Hx. apply in_map_iff in Hx. destruct Hx as [b [<- _]].
  cbn. unfold Qle. cbn. lia.
Qed.

Lemma C7_cumulative_profile_nondecreasing_witness :
  (forall f, In f (kept drifting_zone_Q "name CL" None (Some (0, 3)%Z)) ->
     Forall (Qle 0)
       (count (frame_rdf drifting_zone_Q
                 (zone_selection drifting_zone_Q "name CL" None)
                 "name OW" f)))
  /\ kept drifting_zone_Q "name CL" None (Some (0, 3)%Z) = [0; 2]%Z
  /\ nondecreasing (frame_profile drifting_zone_Q "name CL" "name OW" 2%Z).
Proof.
  assert (H : forall f,
             In f (kept drifting_zone_Q "name CL" None (Some (0, 3)%Z)) ->
             Forall (Qle 0)
               (count (frame_rdf drifting_zone_Q
                         (zone_selection drifting_zone_Q "name CL" None)
                         "name OW" f))).
  { intros f _. apply demo_counts_nonneg. }
  split; [exact H|]. split; [vm_compute; reflexivity|].
  refine (proj2 (proj1 (C7_cumulative_profile_nondecreasing
                          (O := OrderedNum_Q) drifting_zone_Q "name CL"
                          "name OW" None (Some (0, 3)%Z) H) 2%Z _)).
  vm_compute. right. left. reflexivity.
Defined.

(** The same on the float64 run of the three-frame zone with an empty
    middle frame: the per-frame profile and the averaged profile are
    non-decreasing under the float comparison. *)
Fixpoint nondecreasing_float (xs : list float) : bool :=
  match xs with
  | x :: (y :: _) as rest => PrimFloat.leb x y && nondecreasing_float rest
  | _ => true
  end.

Example drifting_zone_profiles_nondecreasing :
  nondecreasing_float (frame_profile drifting_zone "name CL" "name OW" 0%Z)
  = true
  /\ exists b r cumu_avg k,
       result (analyze_rdf drifting_zone "name CL" "name OW" None
                 (Some (0, 3)%Z))
       = Returned (b, r, Array cumu_avg, k)
       /\ length cumu_avg = 150
       /\ nondecreasing_float cumu_avg = true.
Proof.
  split; [vm_compute; reflexivity|].
  eexists. eexists. eexists. eexists.
  split; [vm_compute; reflexivity|].
  split; vm_compute; reflexivity.
Qed.

(** ** Averaging identical frames *)

Section IdenticalFrames.

Context {R : Type} {N : Num R}.

(** [v + v + ... + v] with [n] terms, added left to right ([n >= 1]). *)
Definition repeated_sum (v : R) (n : nat) : R :=
  fold_left nadd (repeat v (n - 1)) v.

Lemma add_rows_map (g : R -> R) (x : list R) :
  add_rows (map g x) x = map (fun v => nadd (g v) v) x.
Proof.
  induction x as [|v x IH]; [reflexivity|].
  cbn [map add_rows]. rewrite IH. reflexivity.
Qed.

Lemma sum_axis0_repeat (x : list R) (m : nat) :
  forall g : R -> R,
    fold_left add_rows (repeat x m) (map g x)
    = map (fun v => fold_left nadd (repeat v m) (g v)) x.
Proof.
  induction m as [|m IH]; intros g; cbn [repeat fold_left].
  - reflexivity.
  - rewrite add_rows_map. rewrite (IH (fun v => nadd (g v) v)). reflexivity.
Qed.

Lemma map_constant {A B} (g : A -> B) (y : B) (l : list A) :
  (forall a, In a l -> g a = y) -> map g l = repeat y (length l).
Proof.
  induction l as [|a l IH]; intros H; [reflexivity|].
  cbn [map length repeat]. rewrite (H a) by (left; reflexivity).
  rewrite IH; [reflexivity|]. intros b Hb. apply H. right. assumption.
Qed.

Lemma mean_rows_identical (x : list R) (n : nat) :
  mean_rows (repeat x (S n))
  = Array (map (fun v => ndiv (repeated_sum v (S n))
                              (of_int (Z.of_nat (S n)))) x).
Proof.
  cbn [repeat mean_rows]. f_equal. unfold sum_axis0, div_int.
  assert (H := sum_axis0_repeat x n (fun v => v)).
  rewrite map_id in H. rewrite H, map_map.
  cbn [length]. rewrite repeat_length. unfold repeated_sum.
  replace (S n - 1) with n by lia. reflexivity.
Qed.

End IdenticalFrames.

Section ExactArithmetic.

Local Open Scope Q_scope.

Lemma repeated_sum_Q (v a : Q) (m : nat) :
  fold_left Qplus (repeat v m) a == a + inject_Z (Z.of_nat m) * v.
Proof.
  revert a. induction m as [|m IH]; intros a.
  - cbn. ring.
  - cbn [repeat fold_left]. rewrite IH.
    rewrite Nat2Z.inj_succ. unfold Z.succ. rewrite inject_Z_plus. ring.
Qed.

Lemma mean_identical_Q (v : Q) (n : nat) :
  ndiv (repeated_sum v (S n)) (of_int (Z.of_nat (S n))) == v.
Proof.
  unfold repeated_sum. cbn [ndiv of_int nadd Num_Q].
  replace (S n - 1)%nat with n by lia. rewrite repeated_sum_Q.
  rewrite Nat2Z.inj_succ. unfold Z.succ. rewrite inject_Z_plus.
  assert (H : ~ inject_Z (Z.of_nat n) + 1 == 0).
  { unfold Qeq. cbn. lia. }
  field. exact H.
Qed.

End ExactArithmetic.

Lemma rdf_avg_identical {R : Type} {N : Num R} (u : Universe R)
  (ion_selection partner_selection : string)
  (region : option (R * R)) (frame_range : option (Z * Z)) (x : list R) :
  let sel := zone_selection u ion_selection region in
  let fs := kept u ion_selection region frame_range in
  fs <> [] ->
  (forall f, In f fs -> rdf (frame_rdf u sel partner_selection f) = x) ->
  exists b c k,
    result (analyze_rdf u ion_selection partner_selection region frame_range)
    = Returned
        (b,
         Array (map (fun v => ndiv (repeated_sum v (length fs))
                                   (of_int (Z.of_nat (length fs)))) x),
         c, k).
Proof.
  intros sel fs Hne Hsame. rewrite analyze_rdf_spec. unfold result. cbn [snd].
  fold sel. fold fs.
  rewrite (map_constant (fun f => rdf (frame_rdf u sel partner_selection f))
             x fs Hsame).
  destruct (length fs) as [|n] eqn:E.
  - apply length_zero_iff_nil in E. contradiction.
  - rewrite mean_rows_identical. eexists. eexists. eexists. reflexivity.
Qed.

(** C8, as the code behaves: when the [N >= 1] retained frames all yield
    the same RDF array, each entry of the averaged RDF is the [N]-fold
    left-to-right sum of the frame's entry divided by [N], in whatever
    arithmetic the program runs; in exact rational arithmetic that is the
    frame's entry itself. *)
Theorem C8_mean_of_identical_frames :
  (forall (R : Type) (N : Num R) (u : Universe R)
          (ion_selection partner_selection : string)
          (region : option (R * R)) (frame_range : option (Z * Z))
          (x : list R),
      kept u ion_selection region frame_range <> [] ->
      (forall f, In f (kept u ion_selection region frame_range) ->
         rdf (frame_rdf u (zone_selection u ion_selection region)
                partner_selection f) = x) ->
      exists b c k,
        result (analyze_rdf u ion_selection partner_selection region
                  frame_range)
        = Returned
            (b,
             Array (map (fun v =>
                           ndiv (repeated_sum v
                                   (length (kept u ion_selection region
                                              frame_range)))
                                (of_int (Z.of_nat
                                           (length (kept u ion_selection
                                                      region frame_range)))))
                      x),
             c, k))
  /\ (forall (u : Universe Q) (ion_selection partner_selection : string)
             (region : option (Q * Q)) (frame_range : option (Z * Z))
             (x : list Q),
        kept u ion_selection region frame_range <> [] ->
        (forall f, In f (kept u ion_selection region frame_range) ->
           rdf (frame_rdf u (zone_selection u ion_selection region)
                  partner_selection f) = x) ->
        exists b avg c k,
          result (analyze_rdf u ion_selection partner_selection region
                    frame_range)
          = Returned (b, Array avg, c, k)
          /\ Forall2 Qeq avg x).
Proof.
  split.
  - intros R N u ion_selection partner_selection region frame_range x Hne Hs.
    exact (rdf_avg_identical u ion_selection partner_selection region
             frame_range x Hne Hs).
  - intros u ion_selection partner_selection region frame_range x Hne Hs.
    destruct (rdf_avg_identical u ion_selection partner_selection region
                frame_range x Hne Hs) as [b [c [k E]]].
    exists b. eexists. exists c, k. split; [exact E|].
    destruct (length (kept u ion_selection region frame_range)) as [|n] eqn:El.
    + apply length_zero_iff_nil in El. contradiction.
    + clear. induction x as [|v x IH]; cbn [map]; constructor.
      * apply mean_identical_Q.
      * exact IH.
Qed.

Definition steady_zone_Q : Universe Q :=
  demo_universe 3 (fun _ => true) (1 # 10)%Q.

Lemma C8_mean_of_identical_frames_witness :
  kept steady_zone_Q "name CL" None (Some (0, 3)%Z) <> []
  /\ (forall f, In f (kept steady_zone_Q "name CL" None (Some (0, 3)%Z)) ->
        rdf (frame_rdf steady_zone_Q (zone_selection steady_zone_Q "name CL" None)
               "name OW" f) = repeat (1 # 10)%Q 150)
  /\ exists b avg c k,
       result (analyze_rdf steady_zone_Q "name CL" "name OW" None
                 (Some (0, 3)%Z))
       = Returned (b, Array avg, c, k)
       /\ Forall2 Qeq avg (repeat (1 # 10)%Q 150).
Proof.
  assert (Hne : kept steady_zone_Q "name CL" None (Some (0, 3)%Z) <> [])
    by (vm_compute; discriminate).
  assert (Hs : forall f,
             In f (kept steady_zone_Q "name CL" None (Some (0, 3)%Z)) ->
             rdf (frame_rdf steady_zone_Q
                    (zone_selection steady_zone_Q "name CL" None) "name OW" f)
             = repeat (1 # 10)%Q 150).
  { intros f _. vm_compute. reflexivity. }
  split; [exact Hne|]. split; [exact Hs|].
  exact (proj2 C8_mean_of_identical_frames steady_zone_Q "name CL" "name OW"
           None (Some (0, 3)%Z) (repeat (1 # 10)%Q 150) Hne Hs).
Defined.

(** C8 as stated fails in float64: three retained frames whose RDF is 0.1
    in every bin average to 0.10000000000000002 in every bin. *)
Lemma C8_float_mean_counterexample :
  kept steady_zone "name CL" None (Some (0, 3)%Z) = [0; 1; 2]%Z
  /\ (forall f, In f [0; 1; 2]%Z ->
        rdf (frame_rdf steady_zone "name CL" "name OW" f) = repeat tenth 150)
  /\ exists b avg c k,
       result (analyze_rdf steady_zone "name CL" "name OW" None
                 (Some (0, 3)%Z))
       = Returned (b, Array avg, c, k)
       /\ avg = repeat 0x1.999999999999bp-4%float 150
       /\ avg <> repeat tenth 150.
Proof.
  split; [vm_compute; reflexivity|]. split.
  - intros f _. vm_compute. reflexivity.
  - eexists. eexists. eexists. eexists.
    split; [vm_compute; reflexivity|]. split; [vm_compute; reflexivity|].
    intros H.
    apply (f_equal (fun l => match l with
                             | v :: _ => PrimFloat.eqb v tenth
                             | [] => true
                             end)) in H.
    vm_compute in H. discriminate.
Qed.

(** ** Files written per zone *)

Section Emission.

Context {R : Type} {N : Num R}.
Variable u : Universe R.
Variable output_dir : string.

Definition zone_name (cfg : config (R := R)) : string :=
  match cfg_name cfg with
  | Some n => n
  | None => "default"
  end.

(** The part of [run_zone] that follows the call of [analyze_rdf]. *)
Definition emit_zone (region_name : string) (bins : option (list R))
  (rdf_avg cumu_avg : ndarray R) (rdf_coord : list R) : M R unit :=
  rows <- lift (DataFrame bins rdf_avg) ;;
  emit (WriteFile output_dir (region_name ++ "_rdf.csv")
          (to_csv "Radius (Å),RDF" rows)) ;;;
  emit (WriteFile output_dir (region_name ++ "_coordno.csv")
          (savetxt rdf_coord "Coordination number")) ;;;
  plot_results output_dir bins rdf_avg cumu_avg region_name.

(** The four files of a zone whose arrays have the same length. *)
Definition zone_files (region_name : string) (b r c k : list R)
  : list (string * string * file R) :=
  [(output_dir, (region_name ++ "_rdf.csv")%string,
    Text (HeaderLine "Radius (Å),RDF"
            :: map (@DataLine R)
                 (map (fun p => [CNum (fst p); CNum (snd p)]) (combine b r))));
   (output_dir, (region_name ++ "_coordno.csv")%string,
    Text (HeaderLine "# Coordination number"
            :: map (fun x => DataLine [CNum x]) k));
   (output_dir, (region_name ++ "_rdf.png")%string,
    Image {| fig_title := "RDF - " ++ region_name;
             fig_xlabel := "Radius (Å)";
             fig_ylabel := "g(r)";
             fig_x := b; fig_y := r |});
   (output_dir, (region_name ++ "_cumuav.png")%string,
    Image {| fig_title := "Cumulative RDF - " ++ region_name;
             fig_xlabel := "Radius (Å)";
             fig_ylabel := "Coordination Number";
             fig_x := b; fig_y := c |})].

Lemma emit_zone_arrays (region_name : string) (b r c k : list R) :
  length b = length r -> length b = length c ->
  result (emit_zone region_name (Some b) (Array r) (Array c) k) = Returned tt
  /\ written_files (trace (emit_zone region_name (Some b) (Array r) (Array c) k))
     = zone_files region_name b r c k.
Proof.
  intros Hr Hc. unfold emit_zone, plot_results, DataFrame, plot.
  rewrite <- Hr, <- Hc, Nat.eqb_refl.
  rewrite !bind_lift_returned. split; reflexivity.
Qed.

Lemma emit_zone_scalars (region_name : string) (x : R) (c : ndarray R)
  (k : list R) :
  emit_zone region_name None (Scalar x) c k
  = ([], Raised (ValueError
                   "If using all scalar values, you must pass an index")).
Proof. reflexivity. Qed.

Lemma run_zone_unfold (cfg : config) (ion psel : string) :
  cfg_ion_selection cfg = Some ion ->
  cfg_partner_selection cfg = Some psel ->
  run_zone u output_dir cfg
  = (res <- analyze_rdf u ion psel (cfg_region cfg) (cfg_frame_range cfg) ;;
     emit_zone (zone_name cfg) (fst (fst (fst res))) (snd (fst (fst res)))
       (snd (fst res)) (snd res)).
Proof.
  intros Hi Hp. unfold run_zone. rewrite Hi, Hp. cbn [getitem].
  rewrite !bind_ret.
  destruct (analyze_rdf u ion psel (cfg_region cfg) (cfg_frame_range cfg))
    as [t [[[[b r] c] k]|e]]; reflexivity.
Qed.

End Emission.

Section ZoneFiles.

Context {R : Type} {N : Num R}.
Variable u : Universe R.
Variable output_dir : string.

Lemma written_files_analyze (ion psel : string) (region : option (R * R))
  (frame_range : option (Z * Z)) :
  written_files (trace (analyze_rdf u ion psel region frame_range)) = [].
Proof.
  rewrite analyze_rdf_spec. unfold trace. cbn [fst].
  rewrite written_files_app, written_files_frames. reflexivity.
Qed.

Lemma mean_rows_array (g : Z -> list R) (w : nat) (f0 : Z) (rest : list Z) :
  (forall f, length (g f) = w) ->
  exists avg, mean_rows (map g (f0 :: rest)) = Array avg /\ length avg = w.
Proof.
  intros Hw. cbn [map mean_rows]. eexists. split; [reflexivity|].
  rewrite div_int_length, sum_axis0_length; [apply Hw|].
  apply Forall_forall. intros r Hr. apply in_map_iff in Hr.
  destruct Hr as [f [<- _]]. rewrite !Hw. reflexivity.
Qed.

(** A zone with both selections configured: it fails before writing
    anything when no frame is retained, and writes its four files
    otherwise. *)
Lemma run_zone_spec (cfg : config) (ion psel : string) :
  cfg_ion_selection cfg = Some ion ->
  cfg_partner_selection cfg = Some psel ->
  let sel := zone_selection u ion (cfg_region cfg) in
  let fs := kept u ion (cfg_region cfg) (cfg_frame_range cfg) in
  match fs with
  | [] =>
      result (run_zone u output_dir cfg)
      = Raised (ValueError "If using all scalar values, you must pass an index")
      /\ written_files (trace (run_zone u output_dir cfg)) = []
  | _ :: _ =>
      exists b r c,
        length b = 150 /\ length r = 150 /\ length c = 150
        /\ result (run_zone u output_dir cfg) = Returned tt
        /\ written_files (trace (run_zone u output_dir cfg))
           = zone_files output_dir (zone_name cfg) b r c
               (map (frame_coord u sel psel) fs)
  end.
Proof.
  intros Hi Hp sel fs. rewrite (run_zone_unfold u output_dir cfg ion psel Hi Hp).
  rewrite analyze_rdf_spec, bind_returned. cbn [fst snd].
  unfold first_bins. fold sel. fold fs.
  destruct fs as [|f0 rest] eqn:Efs.
  - cbn [map mean_rows]. rewrite emit_zone_scalars.
    unfold result, trace. cbn [fst snd]. split; [reflexivity|].
    rewrite app_nil_r, written_files_app, written_files_frames. reflexivity.
  - destruct (mean_rows_array (fun f => rdf (frame_rdf u sel psel f)) 150
                f0 rest (frame_rdf_length u sel psel)) as [r [Er Hr]].
    destruct (mean_rows_array (frame_profile u sel psel) 150
                f0 rest (frame_profile_length u sel psel)) as [c [Ec Hc]].
    rewrite Er, Ec.
    exists (bins (frame_rdf u sel psel f0)), r, c.
    assert (Hb : length (bins (frame_rdf u sel psel f0)) = 150)
      by apply frame_bins_length.
    destruct (emit_zone_arrays output_dir (zone_name cfg)
                (bins (frame_rdf u sel psel f0)) r c
                (map (frame_coord u sel psel) (f0 :: rest)))
      as [Hres Hw]; [congruence|congruence|].
    split; [exact Hb|]. split; [exact Hr|]. split; [exact Hc|].
    unfold result, trace in *. cbn [fst snd]. split; [exact Hres|].
    rewrite written_files_app, Hw, written_files_app, written_files_frames.
    reflexivity.
Qed.

Lemma run_zone_missing_key (cfg : config) :
  cfg_ion_selection cfg = None \/ cfg_partner_selection cfg = None ->
  (exists key, result (run_zone u output_dir cfg) = Raised (KeyError key))
  /\ written_files (trace (run_zone u output_dir cfg)) = [].
Proof.
  intros H. unfold run_zone.
  destruct (cfg_ion_selection cfg) as [ion|].
  - destruct H as [H|H]; [discriminate|]. rewrite H. cbn [getitem].
    rewrite bind_ret. split; [eexists|]; reflexivity.
  - split; [eexists|]; reflexivity.
Qed.

(** What [run_analysis] writes comes from its zones, in order, up to the
    first zone that raises. *)
Lemma run_analysis_files (configs : list config) :
  forall w, In w (written_files (trace (run_analysis u output_dir configs))) ->
    exists cfg, In cfg configs
                /\ In w (written_files (trace (run_zone u output_dir cfg))).
Proof.
  induction configs as [|cfg rest IH]; intros w Hw.
  - destruct Hw.
  - cbn [run_analysis] in Hw.
    destruct (run_zone u output_dir cfg) as [t [[]|e]] eqn:E.
    + rewrite bind_returned in Hw. unfold trace in Hw. cbn [fst] in Hw.
      rewrite written_files_app in Hw. apply in_app_or in Hw.
      destruct Hw as [Hw|Hw].
      * exists cfg. split; [left; reflexivity|]. rewrite E. exact Hw.
      * destruct (IH w Hw) as [cfg' [Hin Hw']].
        exists cfg'. split; [right; exact Hin|exact Hw'].
    + rewrite bind_raised in Hw.
      exists cfg. split; [left; reflexivity|]. rewrite E. exact Hw.
Qed.

Lemma run_analysis_returned (configs : list config) :
  result (run_analysis u output_dir configs) = Returned tt ->
  forall cfg, In cfg configs ->
    result (run_zone u output_dir cfg) = Returned tt
    /\ incl (written_files (trace (run_zone u output_dir cfg)))
            (written_files (trace (run_analysis u output_dir configs))).
Proof.
  induction configs as [|cfg0 rest IH]; intros Hres cfg Hin.
  - destruct Hin.
  - cbn [run_analysis] in *.
    destruct (run_zone u output_dir cfg0) as [t [[]|e]] eqn:E.
    + rewrite bind_returned in *. unfold result, trace in *. cbn [fst snd] in *.
      rewrite written_files_app.
      destruct Hin as [<-|Hin].
      * rewrite E. cbn [fst snd]. split; [reflexivity|].
        apply incl_appl, incl_refl.
      * destruct (IH Hres cfg Hin) as [H1 H2]. split; [exact H1|].
        apply incl_appr. exact H2.
    + rewrite bind_raised in Hres. discriminate.
Qed.

End ZoneFiles.

(** C9: a zone either raises before it writes anything, or it returns
    after writing exactly four files, of which [<name>_rdf.csv] is one
    header line followed by 150 two-column data lines and
    [<name>_coordno.csv] is the line ["# Coordination number"] followed
    by one line per retained frame, that is, per visited frame that was
    not skipped.  Every file [run_analysis] writes is written by one of
    its zones, and when [run_analysis] returns every zone has written its
    files. *)
Theorem C9_csv_row_counts {R : Type} {N : Num R} (u : Universe R)
  (output_dir : string) :
  (forall cfg : config,
     (written_files (trace (run_zone u output_dir cfg)) = []
      /\ exists e, result (run_zone u output_dir cfg) = Raised e)
     \/ (exists ion psel rows coords fig1 fig2,
           cfg_ion_selection cfg = Some ion
           /\ cfg_partner_selection cfg = Some psel
           /\ result (run_zone u output_dir cfg) = Returned tt
           /\ written_files (trace (run_zone u output_dir cfg))
              = [(output_dir, (zone_name cfg ++ "_rdf.csv")%string,
                  Text (HeaderLine "Radius (Å),RDF"
                          :: map (@DataLine R) rows));
                 (output_dir, (zone_name cfg ++ "_coordno.csv")%string,
                  Text (HeaderLine "# Coordination number"
                          :: map (fun x => DataLine [CNum x]) coords));
                 (output_dir, (zone_name cfg ++ "_rdf.png")%string,
                  Image fig1);
                 (output_dir, (zone_name cfg ++ "_cumuav.png")%string,
                  Image fig2)]
           /\ length rows = 150
           /\ Forall (fun row => length row = 2) rows
           /\ length coords
              = length (kept u ion (cfg_region cfg) (cfg_frame_range cfg))
           /\ length coords
              = length (visited u (cfg_frame_range cfg))
                - length (skipped u (zone_selection u ion (cfg_region cfg))
                            (visited u (cfg_frame_range cfg)))))
  /\ (forall configs w,
        In w (written_files (trace (run_analysis u output_dir configs))) ->
        exists cfg, In cfg configs
                    /\ In w (written_files (trace (run_zone u output_dir cfg))))
  /\ (forall configs,
        result (run_analysis u output_dir configs) = Returned tt ->
        forall cfg, In cfg configs ->
          result (run_zone u output_dir cfg) = Returned tt
          /\ incl (written_files (trace (run_zone u output_dir cfg)))
                  (written_files (trace (run_analysis u output_dir configs)))).
Proof.
  split; [|split].
  - intros cfg.
    destruct (cfg_ion_selection cfg) as [ion|] eqn:Hi.
    2:{ left. destruct (run_zone_missing_key u output_dir cfg (or_introl Hi))
          as [[key Hk] Hw].
        split; [exact Hw|]. exists (KeyError key). exact Hk. }
    destruct (cfg_partner_selection cfg) as [psel|] eqn:Hp.
    2:{ left. destruct (run_zone_missing_key u output_dir cfg (or_intror Hp))
          as [[key Hk] Hw].
        split; [exact Hw|]. exists (KeyError key). exact Hk. }
    assert (H := run_zone_spec u output_dir cfg ion psel Hi Hp).
    cbv zeta in H.
    assert (Hlen := retained_skipped_length u
                      (zone_selection u ion (cfg_region cfg))
                      (visited u (cfg_frame_range cfg))).
    fold (kept u ion (cfg_region cfg) (cfg_frame_range cfg)) in Hlen.
    destruct (kept u ion (cfg_region cfg) (cfg_frame_range cfg))
      as [|f0 rest] eqn:Ek.
    + left. destruct H as [Hres Hw]. split; [exact Hw|].
      eexists. exact Hres.
    + right. destruct H as [b [r [c [Hb [Hr [Hc [Hres Hw]]]]]]].
      exists ion, psel.
      exists (map (fun p => [CNum (fst p); CNum (snd p)]) (combine b r)).
      exists (map (frame_coord u (zone_selection u ion (cfg_region cfg)) psel)
                (f0 :: rest)).
      eexists. eexists.
      split; [reflexivity|]. split; [reflexivity|]. split; [exact Hres|].
      split; [exact Hw|]. split.
      * rewrite length_map, length_combine, Hb, Hr. reflexivity.
      * split.
        -- apply Forall_forall. intros row Hrow. apply in_map_iff in Hrow.
           destruct Hrow as [p [<- _]]. reflexivity.
        -- rewrite length_map, Ek. split; [reflexivity|]. lia.
  - apply run_analysis_files.
  - apply run_analysis_returned.
Qed.

(** The spec's scenario: three frames, an ion in the first and in the
    last only.  Two frames are retained, the coordination file has two
    data lines, and the RDF table has 150. *)
Definition bulk_config : config (R := float) :=
  {| cfg_name := Some "bulk";
     cfg_ion_selection := Some "name CL";
     cfg_partner_selection := Some "name OW";
     cfg_region := None;
     cfg_frame_range := Some (0, 3)%Z |}.

Definition text_lines {R : Type} (c : file R) : nat :=
  match c with
  | Text ls => length ls
  | Image _ => 0
  end.

Example drifting_zone_files :
  kept drifting_zone "name CL" None (Some (0, 3)%Z) = [0; 2]%Z
  /\ result (run_analysis drifting_zone "analysis_results" [bulk_config])
     = Returned tt
  /\ map (fun w => (snd (fst w), text_lines (snd w)))
       (written_files
          (trace (run_analysis drifting_zone "analysis_results" [bulk_config])))
     = [("bulk_rdf.csv", 151); ("bulk_coordno.csv", 3);
        ("bulk_rdf.png", 0); ("bulk_cumuav.png", 0)].
Proof. repeat split; vm_compute; reflexivity. Qed.

(** * Further properties of the driver *)

(** ** The frame range as a slice *)




Lemma py_range_empty (a b : Z) : (b <= a)%Z -> py_range a b = [].
Proof.
  intros H. unfold py_range. replace (Z.to_nat (b - a)) with 0 by lia.
  reflexivity.
Qed.

(** Called without a frame range on a trajectory of at most 20000
    frames, the loop visits nothing: no selection is evaluated, and the
    function returns no bins, NaN for both averages and no coordination
    number, after printing a NaN average. *)
Theorem default_range_on_short_trajectory (u : Universe float)
  (ion_selection partner_selection : string)
  (region : option (float * float))
  (Hshort : (n_frames u <= 20000)%Z) :
  analyze_rdf u ion_selection partner_selection region None
  = ([PrintCoordAvg (Scalar nan)],
     Returned (None, Scalar nan, Scalar nan, [])).
Proof.
  rewrite analyze_rdf_spec.
  assert (E : visited u None = []).
  { rewrite visited_default. apply py_range_empty.
    destruct (Z.ltb_spec (n_frames u) 25000); lia. }
  unfold first_bins, kept. rewrite E. reflexivity.
Qed.

Lemma default_range_on_short_trajectory_witness :
  (n_frames steady_zone <= 20000)%Z
  /\ analyze_rdf steady_zone "name CL" "name OW" None None
     = ([PrintCoordAvg (Scalar nan)],
        Returned (None, Scalar nan, Scalar nan, [])).
Proof.
  assert (H : (n_frames steady_zone <= 20000)%Z) by (vm_compute; discriminate).
  split; [exact H|].
  exact (default_range_on_short_trajectory steady_zone "name CL" "name OW"
           None H).
Defined.

(** ** The loop as a stream *)




Lemma retained_idempotent {R : Type} (u : Universe R) (sel : string)
  (frames : list Z) :
  retained u sel (retained u sel frames) = retained u sel frames.
Proof.
  unfold retained. induction frames as [|f frames IH]; [reflexivity|].
  cbn [filter]. destruct (is_retained u sel f) eqn:E; [|exact IH].
  cbn [filter]. rewrite E, IH. reflexivity.
Qed.

(** The samples the loop accumulates depend on the frames with ions
    only: leaving the ion-free frames out of the list of frames changes
    what is printed and selected, not the accumulators reached. *)
Theorem ion_free_frames_do_not_count {R : Type} {N : Num R} (u : Universe R)
  (sel psel : string) (frames : list Z) (st : accumulators) :
  result (for_frames u sel psel frames st)
  = result (for_frames u sel psel (retained u sel frames) st)
  /\ (forall f, In f frames -> select_atoms u f sel = [] ->
        ~ In f (retained u sel frames))
  /\ exists st',
       result (for_frames u sel psel frames st) = Returned st'
       /\ length (rdf_list st')
          = length (rdf_list st) + length (retained u sel frames)
       /\ length (rdf_coord st')
          = length (rdf_coord st) + length (retained u sel frames)
       /\ length (rdf_cumu st')
          = length (rdf_cumu st) + length (retained u sel frames).
Proof.
  split; [|split].
  - rewrite !for_frames_spec, retained_idempotent. reflexivity.
  - intros f _ Hempty Hin. unfold retained in Hin. apply filter_In in Hin.
    destruct Hin as [_ Hr]. unfold is_retained, frame_ions in Hr.
    rewrite Hempty in Hr. discriminate.
  - rewrite for_frames_spec. eexists. split; [reflexivity|].
    unfold extend. cbn [rdf_list rdf_coord rdf_cumu].
    rewrite !length_app, !length_map. repeat split; reflexivity.
Qed.

(** ** The shape of the value analyze_rdf returns *)


(** ** The reported coordination number *)

(** In exact arithmetic the average coordination number the function
    prints is entry 38 of the averaged cumulative profile it returns:
    both are the mean over the retained frames of entry 38 of the
    per-frame profiles. *)
Theorem printed_coordination_is_profile_entry (u : Universe Q)
  (ion_selection partner_selection : string)
  (region : option (Q * Q)) (frame_range : option (Z * Z))
  (Hkept : kept u ion_selection region frame_range <> []) :
  let run := analyze_rdf u ion_selection partner_selection region frame_range in
  exists b r cumu_avg k coord_avg entry,
    result run = Returned (b, r, Array cumu_avg, k)
    /\ In (PrintCoordAvg (Scalar coord_avg)) (trace run)
    /\ nth_error cumu_avg 38 = Some entry
    /\ (coord_avg == entry)%Q.
Proof.
  intros run. unfold run. rewrite analyze_rdf_spec.
  unfold result, trace. cbn [fst snd].
  set (sel := zone_selection u ion_selection region).
  fold (kept u ion_selection region frame_range).
  set (fs := kept u ion_selection region frame_range) in *.
  rewrite (mean_rows_columns (frame_profile u sel partner_selection) 150 fs
             (frame_profile_length u sel partner_selection) Hkept).
  rewrite np_mean_scalars_arith, length_map.
  eexists. eexists. eexists. eexists. eexists. eexists.
  split; [reflexivity|]. split; [apply in_or_app; right; left; reflexivity|].
  split.
  - rewrite nth_error_map, nth_error_seq. cbn [Nat.ltb Nat.leb option_map].
    reflexivity.
  - cbn [Nat.add]. apply Qeq_refl.
Qed.

Lemma printed_coordination_is_profile_entry_witness :
  kept drifting_zone_Q "name CL" None (Some (0, 3)%Z) <> []
  /\ exists b r cumu_avg k coord_avg entry,
       result (analyze_rdf drifting_zone_Q "name CL" "name OW" None
                 (Some (0, 3)%Z))
       = Returned (b, r, Array cumu_avg, k)
       /\ In (PrintCoordAvg (Scalar coord_avg))
            (trace (analyze_rdf drifting_zone_Q "name CL" "name OW" None
                      (Some (0, 3)%Z)))
       /\ nth_error cumu_avg 38 = Some entry
       /\ (coord_avg == entry)%Q.
Proof.
  assert (H : kept drifting_zone_Q "name CL" None (Some (0, 3)%Z) <> [])
    by (vm_compute; discriminate).
  split; [exact H|].
  exact (printed_coordination_is_profile_entry drifting_zone_Q "name CL"
           "name OW" None (Some (0, 3)%Z) H).
Defined.

(** ** Zones that fail *)

Section Batch.

Context {R : Type} {N : Num R}.
Variable u : Universe R.
Variable output_dir : string.

(** A zone configuration without [ion_selection] raises
    [KeyError('ion_selection')], one with it but without
    [partner_selection] raises [KeyError('partner_selection')], in both
    cases before anything is printed, selected or written; the keys
    [name], [region] and [frame_range] may be absent, no [KeyError]
    comes from them. *)
Theorem run_zone_key_errors (cfg : config) :
  (cfg_ion_selection cfg = None ->
   run_zone u output_dir cfg = ([], Raised (KeyError "ion_selection")))
  /\ (forall ion, cfg_ion_selection cfg = Some ion ->
        cfg_partner_selection cfg = None ->
        run_zone u output_dir cfg = ([], Raised (KeyError "partner_selection")))
  /\ (forall ion psel key,
        cfg_ion_selection cfg = Some ion ->
        cfg_partner_selection cfg = Some psel ->
        result (run_zone u output_dir cfg) <> Raised (KeyError key)).
Proof.
  split; [|split].
  - intros Hi. unfold run_zone. rewrite Hi. reflexivity.
  - intros ion Hi Hp. unfold run_zone. rewrite Hi, Hp. cbn [getitem].
    rewrite bind_ret. reflexivity.
  - intros ion psel key Hi Hp H.
    assert (S := run_zone_spec u output_dir cfg ion psel Hi Hp).
    cbv zeta in S.
    destruct (kept u ion (cfg_region cfg) (cfg_frame_range cfg)).
    + destruct S as [S _]. rewrite S in H. discriminate.
    + destruct S as [b [r [c [_ [_ [_ [S _]]]]]]]. rewrite S in H. discriminate.
Qed.

(** A zone in which no visited frame has an ion scans all its frames,
    prints a NaN-style average and then fails in [pd.DataFrame] with a
    [ValueError]; it writes no file. *)
Theorem run_zone_without_ions (cfg : config) (ion psel : string)
  (Hi : cfg_ion_selection cfg = Some ion)
  (Hp : cfg_partner_selection cfg = Some psel)
  (Hnone : kept u ion (cfg_region cfg) (cfg_frame_range cfg) = []) :
  run_zone u output_dir cfg
  = (flat_map (frame_events (zone_selection u ion (cfg_region cfg)) psel)
       (visited u (cfg_frame_range cfg))
       ++ [PrintCoordAvg (Scalar (ndiv nzero (of_int 0)))],
     Raised (ValueError "If using all scalar values, you must pass an index"))
  /\ written_files (trace (run_zone u output_dir cfg)) = [].
Proof.
  assert (E : run_zone u output_dir cfg
              = (flat_map (frame_events (zone_selection u ion (cfg_region cfg))
                             psel)
                   (visited u (cfg_frame_range cfg))
                   ++ [PrintCoordAvg (Scalar (ndiv nzero (of_int 0)))],
                 Raised (ValueError
                           "If using all scalar values, you must pass an index"))).
  { rewrite (run_zone_unfold u output_dir cfg ion psel Hi Hp).
    rewrite analyze_rdf_spec, bind_returned. cbn [fst snd].
    unfold first_bins. rewrite Hnone. cbn [map mean_rows np_mean_scalars].
    rewrite emit_zone_scalars. cbn [fst snd]. rewrite app_nil_r. reflexivity. }
  split; [exact E|]. rewrite E. unfold trace. cbn [fst].
  rewrite written_files_app, written_files_frames. reflexivity.
Qed.

Lemma run_zone_raised_writes_nothing (cfg : config) (e : exn) :
  result (run_zone u output_dir cfg) = Raised e ->
  written_files (trace (run_zone u output_dir cfg)) = [].
Proof.
  intros H.
  destruct (cfg_ion_selection cfg) as [ion|] eqn:Hi.
  2:{ apply (run_zone_missing_key u output_dir cfg (or_introl Hi)). }
  destruct (cfg_partner_selection cfg) as [psel|] eqn:Hp.
  2:{ apply (run_zone_missing_key u output_dir cfg (or_intror Hp)). }
  assert (S := run_zone_spec u output_dir cfg ion psel Hi Hp). cbv zeta in S.
  destruct (kept u ion (cfg_region cfg) (cfg_frame_range cfg)).
  - apply S.
  - destruct S as [b [r [c [_ [_ [_ [S _]]]]]]]. rewrite S in H. discriminate.
Qed.

Lemma run_analysis_all_returned (configs : list config) :
  Forall (fun cfg => result (run_zone u output_dir cfg) = Returned tt) configs ->
  run_analysis u output_dir configs
  = (flat_map (fun cfg => trace (run_zone u output_dir cfg)) configs,
     Returned tt).
Proof.
  induction 1 as [|cfg rest Hcfg Hrest IH]; [reflexivity|].
  cbn [run_analysis flat_map].
  destruct (run_zone u output_dir cfg) as [t o] eqn:E.
  unfold result in Hcfg. cbn [snd] in Hcfg. subst o.
  rewrite bind_returned, IH. reflexivity.
Qed.

Lemma written_files_zones (configs : list config) :
  written_files (flat_map (fun c => trace (run_zone u output_dir c)) configs)
  = flat_map (fun c => written_files (trace (run_zone u output_dir c))) configs.
Proof.
  induction configs as [|c rest IH]; [reflexivity|].
  cbn [flat_map]. rewrite written_files_app, IH. reflexivity.
Qed.

(** The batch stops at the first zone that raises: the exception is the
    outcome of [run_analysis], the zones after it are never started, and
    the files on disk are those of the zones before it. *)
Theorem run_analysis_stops_at_first_failure
  (done : list config) (cfg : config) (rest : list config) (e : exn)
  (Hdone : Forall (fun c => result (run_zone u output_dir c) = Returned tt)
             done)
  (Hfail : result (run_zone u output_dir cfg) = Raised e) :
  run_analysis u output_dir (done ++ cfg :: rest)
  = (flat_map (fun c => trace (run_zone u output_dir c)) (done ++ [cfg]),
     Raised e)
  /\ written_files (trace (run_analysis u output_dir (done ++ cfg :: rest)))
     = flat_map (fun c => written_files (trace (run_zone u output_dir c))) done.
Proof.
  assert (E : run_analysis u output_dir (done ++ cfg :: rest)
              = (flat_map (fun c => trace (run_zone u output_dir c))
                   (done ++ [cfg]),
                 Raised e)).
  { induction Hdone as [|c done Hc Hdone IH].
    - cbn [app run_analysis flat_map].
      destruct (run_zone u output_dir cfg) as [t o] eqn:E.
      unfold result in Hfail. cbn [snd] in Hfail. subst o.
      rewrite bind_raised, app_nil_r. reflexivity.
    - cbn [app run_analysis flat_map].
      destruct (run_zone u output_dir c) as [t o] eqn:E.
      unfold result in Hc. cbn [snd] in Hc. subst o.
      rewrite bind_returned, IH. reflexivity. }
  split; [exact E|]. rewrite E. unfold trace at 1. cbn [fst].
  rewrite written_files_zones, flat_map_app. cbn [flat_map].
  rewrite (run_zone_raised_writes_nothing cfg e Hfail), !app_nil_r.
  reflexivity.
Qed.

(** [run_analysis] returns exactly when every zone returns; it has then
    run the zones in the order of the list and written four files per
    zone, [<name>_rdf.csv], [<name>_coordno.csv], [<name>_rdf.png] and
    [<name>_cumuav.png], in this order. *)
Theorem run_analysis_zone_order (configs : list config) :
  (result (run_analysis u output_dir configs) = Returned tt
   <-> Forall (fun c => result (run_zone u output_dir c) = Returned tt) configs)
  /\ (result (run_analysis u output_dir configs) = Returned tt ->
      trace (run_analysis u output_dir configs)
      = flat_map (fun c => trace (run_zone u output_dir c)) configs
      /\ map (fun w => (fst (fst w), snd (fst w)))
           (written_files (trace (run_analysis u output_dir configs)))
         = flat_map (fun c =>
                       [(output_dir, (zone_name c ++ "_rdf.csv")%string);
                        (output_dir, (zone_name c ++ "_coordno.csv")%string);
                        (output_dir, (zone_name c ++ "_rdf.png")%string);
                        (output_dir, (zone_name c ++ "_cumuav.png")%string)])
             configs).
Proof.
  assert (Hiff : result (run_analysis u output_dir configs) = Returned tt
                 <-> Forall (fun c => result (run_zone u output_dir c)
                                      = Returned tt) configs).
  { split.
    - intros H. apply Forall_forall. intros c Hc.
      apply (run_analysis_returned u output_dir configs H c Hc).
    - intros H. rewrite (run_analysis_all_returned configs H). reflexivity. }
  split; [exact Hiff|]. intros Hret. apply Hiff in Hret.
  rewrite (run_analysis_all_returned configs Hret).
  change (trace (flat_map (fun c => trace (run_zone u output_dir c)) configs,
                 @Returned unit tt))
    with (flat_map (fun c => trace (run_zone u output_dir c)) configs).
  split; [reflexivity|]. rewrite written_files_zones. clear Hiff.
  induction Hret as [|c rest Hc Hrest IH]; [reflexivity|].
  cbn [flat_map]. rewrite map_app, IH. f_equal.
  destruct (cfg_ion_selection c) as [ion|] eqn:Hi.
  2:{ destruct (run_zone_missing_key u output_dir c (or_introl Hi))
        as [[key Hk] _]. rewrite Hk in Hc. discriminate. }
  destruct (cfg_partner_selection c) as [psel|] eqn:Hp.
  2:{ destruct (run_zone_missing_key u output_dir c (or_intror Hp))
        as [[key Hk] _]. rewrite Hk in Hc. discriminate. }
  assert (S := run_zone_spec u output_dir c ion psel Hi Hp). cbv zeta in S.
  destruct (kept u ion (cfg_region c) (cfg_frame_range c)).
  - destruct S as [S _]. rewrite S in Hc. discriminate.
  - destruct S as [b [r [cu [_ [_ [_ [_ S]]]]]]]. rewrite S. reflexivity.
Qed.

End Batch.

Definition keyless_config : config (R := float) :=
  {| cfg_name := Some "center";
     cfg_ion_selection := None;
     cfg_partner_selection := Some "name OW";
     cfg_region := None;
     cfg_frame_range := None |}.

Lemma run_zone_without_ions_witness :
  cfg_ion_selection bulk_config = Some "name CL"
  /\ cfg_partner_selection bulk_config = Some "name OW"
  /\ kept empty_zone "name CL" (cfg_region bulk_config)
       (cfg_frame_range bulk_config) = []
  /\ result (run_zone empty_zone "analysis_results" bulk_config)
     = Raised (ValueError "If using all scalar values, you must pass an index")
  /\ written_files (trace (run_zone empty_zone "analysis_results" bulk_config))
     = [].
Proof.
  assert (Hk : kept empty_zone "name CL" (cfg_region bulk_config)
                 (cfg_frame_range bulk_config) = [])
    by (vm_compute; reflexivity).
  split; [reflexivity|]. split; [reflexivity|]. split; [exact Hk|].
  destruct (run_zone_without_ions empty_zone "analysis_results" bulk_config
              "name CL" "name OW" eq_refl eq_refl Hk) as [E W].
  split; [|exact W]. rewrite E. reflexivity.
Defined.

Lemma run_analysis_stops_at_first_failure_witness :
  Forall (fun c => result (run_zone drifting_zone "analysis_results" c)
                   = Returned tt) [bulk_config]
  /\ result (run_zone drifting_zone "analysis_results" keyless_config)
     = Raised (KeyError "ion_selection")
  /\ result (run_analysis drifting_zone "analysis_results"
               ([bulk_config] ++ keyless_config :: [bulk_config]))
     = Raised (KeyError "ion_selection")
  /\ written_files
       (trace (run_analysis drifting_zone "analysis_results"
                 ([bulk_config] ++ keyless_config :: [bulk_config])))
     = written_files
         (trace (run_zone drifting_zone "analysis_results" bulk_config)).
Proof.
  assert (Hd : Forall (fun c => result (run_zone drifting_zone
                                          "analysis_results" c) = Returned tt)
                 [bulk_config]).
  { constructor; [vm_compute; reflexivity|constructor]. }
  assert (Hf : result (run_zone drifting_zone "analysis_results" keyless_config)
               = Raised (KeyError "ion_selection")) by reflexivity.
  split; [exact Hd|]. split; [exact Hf|].
  destruct (run_analysis_stops_at_first_failure drifting_zone
              "analysis_results" [bulk_config] keyless_config [bulk_config]
              (KeyError "ion_selection") Hd Hf) as [E W].
  split.
  - rewrite E. reflexivity.
  - rewrite W. cbn [flat_map]. apply app_nil_r.
Defined.

(** ** The two drivers *)

Section Drivers.

Context {R : Type} {N : Num R}.

(** [MDTrajAnalyser.__init__] fixes the output directory. *)
Definition analyser_output_dir : string := "analysis_results".

(** [analysis_configs] of [main()]. *)
Definition analysis_configs : list (config (R := R)) :=
  [ {| cfg_name := Some "bulk";
       cfg_ion_selection := Some "name CL and prop 80 < z";
       cfg_partner_selection := Some "name OW";
       cfg_region := None; cfg_frame_range := None |};
    {| cfg_name := Some "center";
       cfg_ion_selection :=
         Some "name CL and cylayer 0 1.75 10 -10 (resname UNL)";
       cfg_partner_selection := Some "name OW";
       cfg_region := None; cfg_frame_range := None |};
    {| cfg_name := Some "midinner";
       cfg_ion_selection :=
         Some "name CL and cylayer 1.75 3.5 10 -10 (resname UNL)";
       cfg_partner_selection := Some "name OW";
       cfg_region := None; cfg_frame_range := None |};
    {| cfg_name := Some "midouter";
       cfg_ion_selection :=
         Some "name CL and cylayer 3.5 5.25 10 -10 (resname UNL)";
       cfg_partner_selection := Some "name OW";
       cfg_region := None; cfg_frame_range := None |};
    {| cfg_name := Some "interface";
       cfg_ion_selection :=
         Some "name CL and cylayer 5.25 7 10 -10 (resname UNL)";
       cfg_partner_selection := Some "name OW";
       cfg_region := None; cfg_frame_range := None |} ].

(** The list [run_rdf_analysis.py] passes to [run_analysis]. *)
Definition script_configs : list (config (R := R)) :=
  [ {| cfg_name := Some "bulk";
       cfg_ion_selection := Some "name CL and prop 80 < z";
       cfg_partner_selection := Some "name OW";
       cfg_region := None; cfg_frame_range := Some (20000, 25000)%Z |};
    {| cfg_name := Some "center";
       cfg_ion_selection :=
         Some "name CL and cylayer 0 1.75 10 -10 (resname UNL)";
       cfg_partner_selection := Some "name OW";
       cfg_region := None; cfg_frame_range := Some (20000, 25000)%Z |};
    {| cfg_name := Some "midinner";
       cfg_ion_selection :=
         Some "name CL and cylayer 1.75 3.5 10 -10 (resname UNL)";
       cfg_partner_selection := Some "name OW";
       cfg_region := None; cfg_frame_range := Some (20000, 25000)%Z |};
    {| cfg_name := Some "midouter";
       cfg_ion_selection :=
         Some "name CL and cylayer 3.5 5.25 10 -10 (resname UNL)";
       cfg_partner_selection := Some "name OW";
       cfg_region := None; cfg_frame_range := Some (20000, 25000)%Z |};
    {| cfg_name := Some "interface";
       cfg_ion_selection :=
         Some "name CL and cylayer 5.25 7 10 -10 (resname UNL)";
       cfg_partner_selection := Some "name OW";
       cfg_region := None; cfg_frame_range := Some (20000, 25000)%Z |} ].

(** [main()] and the script, on the universe their two files load. *)
Definition main (u : Universe R) : M R unit :=
  run_analysis u analyser_output_dir analysis_configs.

Definition run_rdf_analysis (u : Universe R) : M R unit :=
  run_analysis u analyser_output_dir script_configs.

Definition with_frame_range (cfg : config (R := R)) (fr : Z * Z) : config :=
  {| cfg_name := cfg_name cfg;
     cfg_ion_selection := cfg_ion_selection cfg;
     cfg_partner_selection := cfg_partner_selection cfg;
     cfg_region := cfg_region cfg;
     cfg_frame_range := Some fr |}.

End Drivers.

(** Writing the frame range [20000, 25000] into a zone's configuration
    changes nothing against leaving the key out, whatever the
    trajectory; so the script [run_rdf_analysis.py] and [main()], whose
    zone lists differ in that key only, print, select, write and return
    or raise the same. *)
Theorem explicit_default_range_is_default {R : Type} {N : Num R}
  (u : Universe R) (output_dir : string) :
  (forall cfg : config,
     cfg_frame_range cfg = None ->
     run_zone u output_dir (with_frame_range cfg (20000, 25000)%Z)
     = run_zone u output_dir cfg)
  /\ (forall configs : list config,
        Forall (fun cfg => cfg_frame_range cfg = None) configs ->
        run_analysis u output_dir
          (map (fun cfg => with_frame_range cfg (20000, 25000)%Z) configs)
        = run_analysis u output_dir configs)
  /\ run_rdf_analysis u = main u.
Proof.
  assert (Hz : forall cfg : config,
             cfg_frame_range cfg = None ->
             run_zone u output_dir (with_frame_range cfg (20000, 25000)%Z)
             = run_zone u output_dir cfg).
  { intros [name ion psel region fr] H. cbn [cfg_frame_range] in H. subst fr.
    reflexivity. }
  split; [exact Hz|]. split.
  - induction 1 as [|cfg rest Hcfg Hrest IH]; [reflexivity|].
    cbn [map run_analysis]. rewrite (Hz cfg Hcfg), IH. reflexivity.
  - reflexivity.
Qed.

(** ** plot_results on its own *)

(** Called with bin centres and two arrays, [plot_results] saves
    [<name>_rdf.png] and then [<name>_cumuav.png] when all three have
    the same length.  When only the cumulative array has another length
    the RDF figure is already saved when [plt.plot] raises; when the RDF
    array has another length nothing is saved. *)
Theorem plot_results_files {R : Type} (output_dir : string)
  (bins rdf_avg cumu_rdf : list R) (region_name : string) :
  let rdf_png :=
    WriteFile output_dir (region_name ++ "_rdf.png")
      (Image {| fig_title := "RDF - " ++ region_name;
                fig_xlabel := "Radius (Å)";
                fig_ylabel := "g(r)";
                fig_x := bins; fig_y := rdf_avg |}) in
  let cumu_png :=
    WriteFile output_dir (region_name ++ "_cumuav.png")
      (Image {| fig_title := "Cumulative RDF - " ++ region_name;
                fig_xlabel := "Radius (Å)";
                fig_ylabel := "Coordination Number";
                fig_x := bins; fig_y := cumu_rdf |}) in
  let run := plot_results output_dir (Some bins) (Array rdf_avg)
               (Array cumu_rdf) region_name in
  (length bins = length rdf_avg -> length bins = length cumu_rdf ->
   run = ([rdf_png; cumu_png], Returned tt))
  /\ (length bins = length rdf_avg -> length bins <> length cumu_rdf ->
      run = ([rdf_png],
             Raised (ValueError "x and y must have same first dimension")))
  /\ (length bins <> length rdf_avg ->
      run = ([], Raised (ValueError "x and y must have same first dimension"))).
Proof.
  intros rdf_png cumu_png run. unfold run, plot_results, plot.
  split; [|split].
  - intros Hr Hc. rewrite <- Hr, <- Hc, Nat.eqb_refl.
    rewrite !bind_lift_returned. reflexivity.
  - intros Hr Hc. rewrite <- Hr, Nat.eqb_refl.
    apply Nat.eqb_neq in Hc. rewrite Hc.
    rewrite bind_lift_returned. reflexivity.
  - intros Hr. apply Nat.eqb_neq in Hr. rewrite Hr. reflexivity.
Qed.
